(** * SharedMessaging: message catalog, channel routing and dispatch

    A shallow embedding of the Swift sources that the generator scripts
    write out: [MessageTypes.swift] and [Configuration.swift]
    (src/script_2.py) and [PubSubManager.swift] (src/script_3.py).

    Conventions.
    - [Double], [Date] and [TimeInterval] are IEEE binary64 values
      ([PrimFloat.float]); a [Date] is its [timeIntervalSinceReferenceDate].
    - [UUID] is the 128-bit value as a number.
    - A throwing function returns [try A]: [returns a] or [throws e].
    - The bytes produced by [JSONEncoder] are represented by the tree of
      keyed containers the synthesized [encode(to:)] builds ([Encoded]);
      Foundation's own value types (Bool, Double, String, UUID) are its
      leaves.  Printing that tree to text and parsing it back is
      Foundation's business and is not unfolded here. *)

From Stdlib Require Import ZArith String List.
From Stdlib Require Import Floats.PrimFloat.
From stdpp Require Import base option gmap strings list fin_maps.

Local Open Scope string_scope.
Local Open Scope list_scope.
#[local] Set Warnings "-register-all".

(* ------------------------------------------------------------------ *)
(** ** Foundation value types *)

Definition Double : Type := float.
Definition Date : Type := float.
Definition TimeInterval : Type := float.
Definition UUID : Type := N.

(* ------------------------------------------------------------------ *)
(** ** MessageTypes.swift: enumerations with [String] raw values *)

Module MessageType.
Inductive t : Type :=
| heartbeat | systemStatus | userActivity | configuration
| command | response | error | shutdown.

Definition rawValue (x : t) : string :=
  match x with
  | heartbeat => "heartbeat"
  | systemStatus => "system_status"
  | userActivity => "user_activity"
  | configuration => "configuration"
  | command => "command"
  | response => "response"
  | error => "error"
  | shutdown => "shutdown"
  end.

Definition allCases : list t :=
  [heartbeat; systemStatus; userActivity; configuration;
   command; response; error; shutdown].

(** [init?(rawValue:)]: the first case whose raw value is the string. *)
Definition init_rawValue (s : string) : option t :=
  List.find (fun x => String.eqb (rawValue x) s) allCases.

#[global] Instance eq_dec : EqDecision t.
Proof. solve_decision. Defined.
End MessageType.

Module DaemonType.
Inductive t : Type := user | system | broadcast.

Definition rawValue (x : t) : string :=
  match x with
  | user => "user_daemon"
  | system => "system_daemon"
  | broadcast => "broadcast"
  end.

Definition allCases : list t := [user; system; broadcast].

Definition init_rawValue (s : string) : option t :=
  List.find (fun x => String.eqb (rawValue x) s) allCases.

#[global] Instance eq_dec : EqDecision t.
Proof. solve_decision. Defined.
End DaemonType.

Module MessagePriority.
Inductive t : Type := low | normal | high | critical.

Definition rawValue (x : t) : string :=
  match x with
  | low => "low"
  | normal => "normal"
  | high => "high"
  | critical => "critical"
  end.

Definition allCases : list t := [low; normal; high; critical].

Definition init_rawValue (s : string) : option t :=
  List.find (fun x => String.eqb (rawValue x) s) allCases.
End MessagePriority.

Module SystemStatus.
Inductive t : Type := healthy | degraded | critical | maintenance.

Definition rawValue (x : t) : string :=
  match x with
  | healthy => "healthy"
  | degraded => "degraded"
  | critical => "critical"
  | maintenance => "maintenance"
  end.

Definition allCases : list t := [healthy; degraded; critical; maintenance].

Definition init_rawValue (s : string) : option t :=
  List.find (fun x => String.eqb (rawValue x) s) allCases.
End SystemStatus.

(* ------------------------------------------------------------------ *)
(** ** Errors *)

Inductive EncodingError : Type :=
| invalidValue (key : string).

Inductive DecodingError : Type :=
| keyNotFound (key : string)
| valueNotFound (key : string)
| typeMismatch (key : string)
| dataCorrupted (key : string).

(** A failure reported by the PubNub SDK (opaque to this package). *)
Inductive TransportError : Type :=
| transportError (code : N).

(** [PubSubError] of PubSubManager.swift together with the other
    conformers of [Error] that can travel through this package. *)
Inductive SwiftError : Type :=
| Encoding (e : EncodingError)
| Decoding (e : DecodingError)
| Transport (e : TransportError)
| PubSub (e : PubSubError)
with PubSubError : Type :=
| notConfigured
| timeout
| unsupportedMessageType (type : MessageType.t)
| publishFailed (e : SwiftError)
| subscriptionFailed (e : SwiftError).

Inductive try (A : Type) : Type :=
| returns (a : A)
| throws (e : SwiftError).
Arguments returns {A} a.
Arguments throws {A} e.

Definition try_bind {A B} (x : try A) (k : A -> try B) : try B :=
  match x with
  | returns a => k a
  | throws e => throws e
  end.

Declare Scope try_scope.
Delimit Scope try_scope with try.
Notation "'try!' x <- c ; k" := (try_bind c (fun x => k))
  (at level 10, x name, c at level 100, k at level 200) : try_scope.
Local Open Scope try_scope.

(* ------------------------------------------------------------------ *)
(** ** The encoder's output: keyed containers over value leaves *)

Inductive Encoded : Type :=
| ENull
| EBool (b : bool)
| ENumber (d : Double)
| EString (s : string)
| EUUID (u : UUID)
| EKeyed (fields : list (string * Encoded)).

Definition Data : Type := Encoded.

Fixpoint container_lookup (key : string) (fields : list (string * Encoded))
  : option Encoded :=
  match fields with
  | [] => None
  | (k, v) :: rest =>
      if String.eqb k key then Some v else container_lookup key rest
  end.

Definition keyedContainer (d : Data) : try (list (string * Encoded)) :=
  match d with
  | EKeyed fields => returns fields
  | _ => throws (Decoding (typeMismatch ""))
  end.

(** [container.encode(_:forKey:)] of each leaf type.  [JSONEncoder]
    throws on a non-finite [Double] (its default strategy). *)
Definition encodeDouble (key : string) (d : Double) : try Encoded :=
  if is_finite d then returns (ENumber d)
  else throws (Encoding (invalidValue key)).

Definition encodeDoubleIfPresent (key : string) (d : option Double)
  : try (list (string * Encoded)) :=
  match d with
  | None => returns []
  | Some x => try! v <- encodeDouble key x; returns [(key, v)]
  end.

Definition encodeIfPresent {A} (enc : A -> Encoded) (key : string)
  (x : option A) : list (string * Encoded) :=
  match x with
  | None => []
  | Some a => [(key, enc a)]
  end.

(** [container.decode(_:forKey:)]: a missing key is [keyNotFound], a null
    is [valueNotFound], anything the leaf decoder refuses is its error. *)
Definition decodeKey {A} (leaf : string -> Encoded -> try A) (key : string)
  (fields : list (string * Encoded)) : try A :=
  match container_lookup key fields with
  | None => throws (Decoding (keyNotFound key))
  | Some ENull => throws (Decoding (valueNotFound key))
  | Some v => leaf key v
  end.

(** [container.decodeIfPresent(_:forKey:)]: a missing key or a null is
    [nil]. *)
Definition decodeKeyIfPresent {A} (leaf : string -> Encoded -> try A)
  (key : string) (fields : list (string * Encoded)) : try (option A) :=
  match container_lookup key fields with
  | None | Some ENull => returns None
  | Some v => try! a <- leaf key v; returns (Some a)
  end.

Definition leafBool (key : string) (v : Encoded) : try bool :=
  match v with EBool b => returns b | _ => throws (Decoding (typeMismatch key)) end.

Definition leafDouble (key : string) (v : Encoded) : try Double :=
  match v with ENumber d => returns d | _ => throws (Decoding (typeMismatch key)) end.

Definition leafString (key : string) (v : Encoded) : try string :=
  match v with EString s => returns s | _ => throws (Decoding (typeMismatch key)) end.

Definition leafUUID (key : string) (v : Encoded) : try UUID :=
  match v with EUUID u => returns u | _ => throws (Decoding (typeMismatch key)) end.

(** A [RawRepresentable] enum decodes its raw string and fails with
    [dataCorrupted] when no case has it. *)
Definition leafRaw {A} (init_rawValue : string -> option A) (key : string)
  (v : Encoded) : try A :=
  try! s <- leafString key v;
  match init_rawValue s with
  | Some a => returns a
  | None => throws (Decoding (dataCorrupted key))
  end.

(** [[String: String]]: a keyed container whose values are strings. *)
Fixpoint decodeStringEntries (key : string) (fields : list (string * Encoded))
  : try (list (string * string)) :=
  match fields with
  | [] => returns []
  | (k, v) :: rest =>
      try! s <- leafString key v;
      try! tl <- decodeStringEntries key rest;
      returns ((k, s) :: tl)
  end.

Definition encodeDictionary (d : gmap string string) : Encoded :=
  EKeyed (List.map (fun kv => (fst kv, EString (snd kv))) (map_to_list d)).

Definition leafDictionary (key : string) (v : Encoded)
  : try (gmap string string) :=
  match v with
  | EKeyed fields =>
      try! l <- decodeStringEntries key fields;
      returns (list_to_map l)
  | _ => throws (Decoding (typeMismatch key))
  end.

(* ------------------------------------------------------------------ *)
(** ** MessageTypes.swift: [BaseMessage] and the four concrete messages *)

(** [protocol BaseMessage: Codable, Sendable]. *)
Module BaseMessage.
Class t (T : Type) : Type := {
  id : T -> UUID;
  timestamp : T -> Date;
  messageType : T -> MessageType.t;
  source : T -> DaemonType.t;
  target : T -> option DaemonType.t;
  encode : T -> try Data;
  decode : Data -> try T
}.
End BaseMessage.

Definition encodeRaw {A} (rawValue : A -> string) (a : A) : Encoded :=
  EString (rawValue a).

(** In every message [messageType] is a [let] with an initial value: the
    synthesized [encode(to:)] writes it, the synthesized [init(from:)]
    leaves it alone and never reads the key. *)

Module HeartbeatMessage.
Record t : Type := {
  id : UUID;
  timestamp : Date;
  source : DaemonType.t;
  target : option DaemonType.t;
  systemLoad : option Double;
  memoryUsage : option Double;
  uptime : TimeInterval
}.

Definition messageType (_ : t) : MessageType.t := MessageType.heartbeat.

(** [init(source:target:systemLoad:memoryUsage:uptime:)]; [UUID()] and
    [Date()] are handed in. *)
Definition init (newId : UUID) (now : Date) (source : DaemonType.t)
  (target : option DaemonType.t) (systemLoad memoryUsage : option Double)
  (uptime : TimeInterval) : t :=
  {| id := newId; timestamp := now; source := source; target := target;
     systemLoad := systemLoad; memoryUsage := memoryUsage;
     uptime := uptime |}.

Definition encode (m : t) : try Data :=
  try! ts <- encodeDouble "timestamp" (timestamp m);
  try! load <- encodeDoubleIfPresent "systemLoad" (systemLoad m);
  try! mem <- encodeDoubleIfPresent "memoryUsage" (memoryUsage m);
  try! up <- encodeDouble "uptime" (uptime m);
  returns (EKeyed
    ([("id", EUUID (id m));
      ("timestamp", ts);
      ("messageType", encodeRaw MessageType.rawValue (messageType m));
      ("source", encodeRaw DaemonType.rawValue (source m))]
     ++ encodeIfPresent (encodeRaw DaemonType.rawValue) "target" (target m)
     ++ load ++ mem
     ++ [("uptime", up)])).

Definition decode (d : Data) : try t :=
  try! c <- keyedContainer d;
  try! i <- decodeKey leafUUID "id" c;
  try! ts <- decodeKey leafDouble "timestamp" c;
  try! src <- decodeKey (leafRaw DaemonType.init_rawValue) "source" c;
  try! tgt <- decodeKeyIfPresent (leafRaw DaemonType.init_rawValue) "target" c;
  try! load <- decodeKeyIfPresent leafDouble "systemLoad" c;
  try! mem <- decodeKeyIfPresent leafDouble "memoryUsage" c;
  try! up <- decodeKey leafDouble "uptime" c;
  returns {| id := i; timestamp := ts; source := src; target := tgt;
             systemLoad := load; memoryUsage := mem; uptime := up |}.
End HeartbeatMessage.

Module SystemStatusMessage.
Record t : Type := {
  id : UUID;
  timestamp : Date;
  source : DaemonType.t;
  target : option DaemonType.t;
  status : SystemStatus.t;
  details : option (gmap string string)
}.

Definition messageType (_ : t) : MessageType.t := MessageType.systemStatus.

Definition init (newId : UUID) (now : Date) (source : DaemonType.t)
  (target : option DaemonType.t) (status : SystemStatus.t)
  (details : option (gmap string string)) : t :=
  {| id := newId; timestamp := now; source := source; target := target;
     status := status; details := details |}.

Definition encode (m : t) : try Data :=
  try! ts <- encodeDouble "timestamp" (timestamp m);
  returns (EKeyed
    ([("id", EUUID (id m));
      ("timestamp", ts);
      ("messageType", encodeRaw MessageType.rawValue (messageType m));
      ("source", encodeRaw DaemonType.rawValue (source m))]
     ++ encodeIfPresent (encodeRaw DaemonType.rawValue) "target" (target m)
     ++ [("status", encodeRaw SystemStatus.rawValue (status m))]
     ++ encodeIfPresent encodeDictionary "details" (details m))).

Definition decode (d : Data) : try t :=
  try! c <- keyedContainer d;
  try! i <- decodeKey leafUUID "id" c;
  try! ts <- decodeKey leafDouble "timestamp" c;
  try! src <- decodeKey (leafRaw DaemonType.init_rawValue) "source" c;
  try! tgt <- decodeKeyIfPresent (leafRaw DaemonType.init_rawValue) "target" c;
  try! st <- decodeKey (leafRaw SystemStatus.init_rawValue) "status" c;
  try! det <- decodeKeyIfPresent leafDictionary "details" c;
  returns {| id := i; timestamp := ts; source := src; target := tgt;
             status := st; details := det |}.
End SystemStatusMessage.

Module CommandMessage.
Record t : Type := {
  id : UUID;
  timestamp : Date;
  source : DaemonType.t;
  target : option DaemonType.t;
  command : string;
  parameters : option (gmap string string);
  priority : MessagePriority.t;
  requiresResponse : bool
}.

Definition messageType (_ : t) : MessageType.t := MessageType.command.

Definition init (newId : UUID) (now : Date) (source : DaemonType.t)
  (target : option DaemonType.t) (command : string)
  (parameters : option (gmap string string))
  (priority : MessagePriority.t) (requiresResponse : bool) : t :=
  {| id := newId; timestamp := now; source := source; target := target;
     command := command; parameters := parameters; priority := priority;
     requiresResponse := requiresResponse |}.

Definition encode (m : t) : try Data :=
  try! ts <- encodeDouble "timestamp" (timestamp m);
  returns (EKeyed
    ([("id", EUUID (id m));
      ("timestamp", ts);
      ("messageType", encodeRaw MessageType.rawValue (messageType m));
      ("source", encodeRaw DaemonType.rawValue (source m))]
     ++ encodeIfPresent (encodeRaw DaemonType.rawValue) "target" (target m)
     ++ [("command", EString (command m))]
     ++ encodeIfPresent encodeDictionary "parameters" (parameters m)
     ++ [("priority", encodeRaw MessagePriority.rawValue (priority m));
         ("requiresResponse", EBool (requiresResponse m))])).

Definition decode (d : Data) : try t :=
  try! c <- keyedContainer d;
  try! i <- decodeKey leafUUID "id" c;
  try! ts <- decodeKey leafDouble "timestamp" c;
  try! src <- decodeKey (leafRaw DaemonType.init_rawValue) "source" c;
  try! tgt <- decodeKeyIfPresent (leafRaw DaemonType.init_rawValue) "target" c;
  try! cmd <- decodeKey leafString "command" c;
  try! par <- decodeKeyIfPresent leafDictionary "parameters" c;
  try! pri <- decodeKey (leafRaw MessagePriority.init_rawValue) "priority" c;
  try! req <- decodeKey leafBool "requiresResponse" c;
  returns {| id := i; timestamp := ts; source := src; target := tgt;
             command := cmd; parameters := par; priority := pri;
             requiresResponse := req |}.
End CommandMessage.

Module ResponseMessage.
Record t : Type := {
  id : UUID;
  timestamp : Date;
  source : DaemonType.t;
  target : option DaemonType.t;
  correlationId : UUID;
  success : bool;
  result : option string;
  errorMessage : option string
}.

Definition messageType (_ : t) : MessageType.t := MessageType.response.

Definition init (newId : UUID) (now : Date) (source : DaemonType.t)
  (target : option DaemonType.t) (correlationId : UUID) (success : bool)
  (result errorMessage : option string) : t :=
  {| id := newId; timestamp := now; source := source; target := target;
     correlationId := correlationId; success := success; result := result;
     errorMessage := errorMessage |}.

Definition encode (m : t) : try Data :=
  try! ts <- encodeDouble "timestamp" (timestamp m);
  returns (EKeyed
    ([("id", EUUID (id m));
      ("timestamp", ts);
      ("messageType", encodeRaw MessageType.rawValue (messageType m));
      ("source", encodeRaw DaemonType.rawValue (source m))]
     ++ encodeIfPresent (encodeRaw DaemonType.rawValue) "target" (target m)
     ++ [("correlationId", EUUID (correlationId m));
         ("success", EBool (success m))]
     ++ encodeIfPresent EString "result" (result m)
     ++ encodeIfPresent EString "errorMessage" (errorMessage m))).

Definition decode (d : Data) : try t :=
  try! c <- keyedContainer d;
  try! i <- decodeKey leafUUID "id" c;
  try! ts <- decodeKey leafDouble "timestamp" c;
  try! src <- decodeKey (leafRaw DaemonType.init_rawValue) "source" c;
  try! tgt <- decodeKeyIfPresent (leafRaw DaemonType.init_rawValue) "target" c;
  try! cid <- decodeKey leafUUID "correlationId" c;
  try! ok <- decodeKey leafBool "success" c;
  try! res <- decodeKeyIfPresent leafString "result" c;
  try! err <- decodeKeyIfPresent leafString "errorMessage" c;
  returns {| id := i; timestamp := ts; source := src; target := tgt;
             correlationId := cid; success := ok; result := res;
             errorMessage := err |}.
End ResponseMessage.

#[global] Instance HeartbeatMessage_BaseMessage : BaseMessage.t HeartbeatMessage.t := {|
  BaseMessage.id := HeartbeatMessage.id;
  BaseMessage.timestamp := HeartbeatMessage.timestamp;
  BaseMessage.messageType := HeartbeatMessage.messageType;
  BaseMessage.source := HeartbeatMessage.source;
  BaseMessage.target := HeartbeatMessage.target;
  BaseMessage.encode := HeartbeatMessage.encode;
  BaseMessage.decode := HeartbeatMessage.decode
|}.

#[global] Instance SystemStatusMessage_BaseMessage : BaseMessage.t SystemStatusMessage.t := {|
  BaseMessage.id := SystemStatusMessage.id;
  BaseMessage.timestamp := SystemStatusMessage.timestamp;
  BaseMessage.messageType := SystemStatusMessage.messageType;
  BaseMessage.source := SystemStatusMessage.source;
  BaseMessage.target := SystemStatusMessage.target;
  BaseMessage.encode := SystemStatusMessage.encode;
  BaseMessage.decode := SystemStatusMessage.decode
|}.

#[global] Instance CommandMessage_BaseMessage : BaseMessage.t CommandMessage.t := {|
  BaseMessage.id := CommandMessage.id;
  BaseMessage.timestamp := CommandMessage.timestamp;
  BaseMessage.messageType := CommandMessage.messageType;
  BaseMessage.source := CommandMessage.source;
  BaseMessage.target := CommandMessage.target;
  BaseMessage.encode := CommandMessage.encode;
  BaseMessage.decode := CommandMessage.decode
|}.

#[global] Instance ResponseMessage_BaseMessage : BaseMessage.t ResponseMessage.t := {|
  BaseMessage.id := ResponseMessage.id;
  BaseMessage.timestamp := ResponseMessage.timestamp;
  BaseMessage.messageType := ResponseMessage.messageType;
  BaseMessage.source := ResponseMessage.source;
  BaseMessage.target := ResponseMessage.target;
  BaseMessage.encode := ResponseMessage.encode;
  BaseMessage.decode := ResponseMessage.decode
|}.

(** [any BaseMessage]: the four conformers. *)
Inductive AnyMessage : Type :=
| AnyHeartbeat (m : HeartbeatMessage.t)
| AnySystemStatus (m : SystemStatusMessage.t)
| AnyCommand (m : CommandMessage.t)
| AnyResponse (m : ResponseMessage.t).

Definition any_messageType (m : AnyMessage) : MessageType.t :=
  match m with
  | AnyHeartbeat x => BaseMessage.messageType x
  | AnySystemStatus x => BaseMessage.messageType x
  | AnyCommand x => BaseMessage.messageType x
  | AnyResponse x => BaseMessage.messageType x
  end.

Definition any_source (m : AnyMessage) : DaemonType.t :=
  match m with
  | AnyHeartbeat x => BaseMessage.source x
  | AnySystemStatus x => BaseMessage.source x
  | AnyCommand x => BaseMessage.source x
  | AnyResponse x => BaseMessage.source x
  end.

Definition any_target (m : AnyMessage) : option DaemonType.t :=
  match m with
  | AnyHeartbeat x => BaseMessage.target x
  | AnySystemStatus x => BaseMessage.target x
  | AnyCommand x => BaseMessage.target x
  | AnyResponse x => BaseMessage.target x
  end.

(** [decodedMessage as? ResponseMessage]. *)
Definition as_ResponseMessage (m : AnyMessage) : option ResponseMessage.t :=
  match m with
  | AnyResponse r => Some r
  | _ => None
  end.

(* ------------------------------------------------------------------ *)
(** ** MessageTypes.swift: the wrapper handed to PubNub *)

Module PubSubMessage.
Record t : Type := {
  messageType : MessageType.t;
  payload : Data;
  priority : MessagePriority.t;
  source : DaemonType.t;
  target : option DaemonType.t
}.

(** [init<T: BaseMessage>(message: T, priority: MessagePriority = .normal) throws] *)
Definition init {T} `{BaseMessage.t T} (message : T)
  (priority : MessagePriority.t) : try t :=
  try! payload <- BaseMessage.encode message;
  returns {| messageType := BaseMessage.messageType message;
             payload := payload;
             priority := priority;
             source := BaseMessage.source message;
             target := BaseMessage.target message |}.

(** [decode<T: BaseMessage>(as type: T.Type) throws -> T] *)
Definition decode (T : Type) `{BaseMessage.t T} (self : t) : try T :=
  BaseMessage.decode (payload self).
End PubSubMessage.

Definition PubSubMessage_withAddress (f : PubSubMessage.t)
  (source : DaemonType.t) (target : option DaemonType.t) : PubSubMessage.t :=
  {| PubSubMessage.messageType := PubSubMessage.messageType f;
     PubSubMessage.payload := PubSubMessage.payload f;
     PubSubMessage.priority := PubSubMessage.priority f;
     PubSubMessage.source := source;
     PubSubMessage.target := target |}.

(* ------------------------------------------------------------------ *)
(** ** Configuration.swift *)

Module LogLevel.
Inductive t : Type := trace | debug | info | notice | warning | error | critical.
End LogLevel.

Module ChannelConfiguration.
Record t : Type := {
  systemChannel : string;
  userChannel : string;
  heartbeatChannel : string;
  commandChannel : string;
  statusChannel : string
}.

Definition default : t :=
  {| systemChannel := "dualdaemon.system";
     userChannel := "dualdaemon.user";
     heartbeatChannel := "dualdaemon.heartbeat";
     commandChannel := "dualdaemon.command";
     statusChannel := "dualdaemon.status" |}.
End ChannelConfiguration.

Module PubSubConfiguration.
Record t : Type := {
  publishKey : string;
  subscribeKey : string;
  userId : string;
  channels : ChannelConfiguration.t;
  connectionTimeout : TimeInterval;
  heartbeatInterval : TimeInterval;
  presenceTimeout : TimeInterval
}.

(** [init] with its default arguments 10.0, 30.0 and 300.0. *)
Definition init (publishKey subscribeKey userId : string)
  (channels : ChannelConfiguration.t) : t :=
  {| publishKey := publishKey; subscribeKey := subscribeKey;
     userId := userId; channels := channels;
     connectionTimeout := 10%float; heartbeatInterval := 30%float;
     presenceTimeout := 300%float |}.

(** [static let default]: keys from the process environment, "demo"
    otherwise; the user id falls back to a fresh UUID string. *)
Definition default (environment : string -> option string)
  (uuidString : string) : t :=
  init (default "demo" (environment "PUBNUB_PUBLISH_KEY"))
       (default "demo" (environment "PUBNUB_SUBSCRIBE_KEY"))
       (default uuidString (environment "PUBNUB_USER_ID"))
       ChannelConfiguration.default.
End PubSubConfiguration.

(* ------------------------------------------------------------------ *)
(** ** PubSubManager.swift: state, effects and the manager's monad *)

Inductive ConnectionStatus : Type :=
| disconnected
| connecting
| connected
| reconnecting
| failed (e : SwiftError).

(** Object identities: the delegate, and the checked continuation that
    [withCheckedThrowingContinuation] hands to its closure. *)
Definition Delegate : Type := nat.
Definition Continuation : Type := nat.

(** [UInt(_: Double)] traps unless the truncated value fits; the stored
    value keeps the [Double]. *)
Definition UInt_representable (d : Double) : bool :=
  PrimFloat.ltb (-1)%float d && PrimFloat.ltb d 18446744073709551616%float.

Record PubNubConfiguration : Type := {
  pn_publishKey : string;
  pn_subscribeKey : string;
  pn_userId : string;
  pn_heartbeatInterval : Double;
  pn_presenceTimeout : Double;
  pn_supressLeaveEvents : bool;
  pn_requestMessageCountThreshold : N
}.

Record PubNub : Type := {
  pn_configuration : PubNubConfiguration
}.

(** The closures stored in [pendingResponses]; the only one the source
    ever stores is [{ response in continuation.resume(returning: response) }]. *)
Inductive ResponseHandler : Type :=
| resumeReturning (continuation : Continuation).

(** The texts handed to the logger, one constructor per call site, with
    the interpolated values. *)
Inductive LogMessage : Type :=
| PubNubConfigured (daemonType : DaemonType.t)
| ConnectingToPubNub
| ConnectedAndSubscribed (channels : list string)
| FailedToConnect (e : SwiftError)
| DisconnectedFromPubNub
| PublishingMessage (type : MessageType.t) (channel : string)
| MessagePublished
| FailedToPublish (e : SwiftError)
| SubscriptionError (e : SwiftError)
| FailedToDecodePayload
| ReceivedMessage (type : MessageType.t) (source : DaemonType.t)
| FailedToProcess (e : SwiftError).

(** What the manager does to the outside, in program order. *)
Inductive Event : Type :=
| log (level : LogLevel.t) (message : LogMessage)
| pubnub_add_listener
| pubnub_subscribe (channels : list string)
| pubnub_unsubscribeAll
| pubnub_removeAllListeners
| pubnub_publish (channel : string) (message : PubSubMessage.t)
| didReceiveMessage (d : Delegate) (message : AnyMessage)
| didReceiveError (d : Delegate) (e : SwiftError)
| didUpdateConnectionStatus (d : Delegate) (status : ConnectionStatus)
| continuation_resume (c : Continuation) (outcome : try ResponseMessage.t)
| timer_scheduled (interval : TimeInterval)
| timer_invalidated
| asyncAfter (delay : TimeInterval) (commandId : UUID) (c : Continuation)
| task_publish (command : CommandMessage.t) (channel : option string)
    (c : Continuation)
| task_updateConnectionStatus (status : ConnectionStatus).
(* [asyncAfter], [task_publish] and [task_updateConnectionStatus] record
   that a closure was handed to a queue or spawned as a task, not that it
   has run. *)

Module PubSubManager.
Record t : Type := {
  pubnub : option PubNub;
  configuration : PubSubConfiguration.t;
  daemonType : DaemonType.t;
  connectionStatus : ConnectionStatus;
  subscribedChannels : gset string;
  delegate : option Delegate;
  heartbeatTimer : option TimeInterval;
  pendingResponses : gmap UUID ResponseHandler
}.

Definition set_pubnub (v : option PubNub) (self : t) : t :=
  {| pubnub := v; configuration := configuration self;
     daemonType := daemonType self;
     connectionStatus := connectionStatus self;
     subscribedChannels := subscribedChannels self;
     delegate := delegate self; heartbeatTimer := heartbeatTimer self;
     pendingResponses := pendingResponses self |}.

Definition set_connectionStatus (v : ConnectionStatus) (self : t) : t :=
  {| pubnub := pubnub self; configuration := configuration self;
     daemonType := daemonType self;
     connectionStatus := v;
     subscribedChannels := subscribedChannels self;
     delegate := delegate self; heartbeatTimer := heartbeatTimer self;
     pendingResponses := pendingResponses self |}.

Definition set_subscribedChannels (v : gset string) (self : t) : t :=
  {| pubnub := pubnub self; configuration := configuration self;
     daemonType := daemonType self;
     connectionStatus := connectionStatus self;
     subscribedChannels := v;
     delegate := delegate self; heartbeatTimer := heartbeatTimer self;
     pendingResponses := pendingResponses self |}.

Definition set_delegate (v : option Delegate) (self : t) : t :=
  {| pubnub := pubnub self; configuration := configuration self;
     daemonType := daemonType self;
     connectionStatus := connectionStatus self;
     subscribedChannels := subscribedChannels self;
     delegate := v; heartbeatTimer := heartbeatTimer self;
     pendingResponses := pendingResponses self |}.

Definition set_heartbeatTimer (v : option TimeInterval) (self : t) : t :=
  {| pubnub := pubnub self; configuration := configuration self;
     daemonType := daemonType self;
     connectionStatus := connectionStatus self;
     subscribedChannels := subscribedChannels self;
     delegate := delegate self; heartbeatTimer := v;
     pendingResponses := pendingResponses self |}.

Definition set_pendingResponses (v : gmap UUID ResponseHandler) (self : t) : t :=
  {| pubnub := pubnub self; configuration := configuration self;
     daemonType := daemonType self;
     connectionStatus := connectionStatus self;
     subscribedChannels := subscribedChannels self;
     delegate := delegate self; heartbeatTimer := heartbeatTimer self;
     pendingResponses := v |}.
End PubSubManager.

(** A method of the manager: it reads and writes [self], emits events and
    returns or throws. *)
Definition Action (A : Type) : Type :=
  PubSubManager.t -> try A * PubSubManager.t * list Event.

Definition Action_ret {A} (a : A) : Action A :=
  fun self => (returns a, self, []).

Definition Action_bind {A B} (k : A -> Action B) (x : Action A) : Action B :=
  fun self =>
    match x self with
    | (returns a, self1, ev1) =>
        match k a self1 with
        | (r, self2, ev2) => (r, self2, (ev1 ++ ev2)%list)
        end
    | (throws e, self1, ev1) => (throws e, self1, ev1)
    end.

#[global] Instance Action_MRet : MRet Action := @Action_ret.
#[global] Instance Action_MBind : MBind Action := @Action_bind.

Definition throw {A} (e : SwiftError) : Action A :=
  fun self => (throws e, self, []).

(** [do { body } catch { handler(error) }] *)
Definition do_catch {A} (body : Action A) (handler : SwiftError -> Action A)
  : Action A :=
  fun self =>
    match body self with
    | (returns a, self1, ev1) => (returns a, self1, ev1)
    | (throws e, self1, ev1) =>
        match handler e self1 with
        | (r, self2, ev2) => (r, self2, (ev1 ++ ev2)%list)
        end
    end.

Definition lift_try {A} (x : try A) : Action A :=
  fun self => (x, self, []).

Definition emit (e : Event) : Action unit :=
  fun self => (returns tt, self, [e]).

Definition this : Action PubSubManager.t :=
  fun self => (returns self, self, []).

Definition modify (f : PubSubManager.t -> PubSubManager.t) : Action unit :=
  fun self => (returns tt, f self, []).

Definition result_of {A} (r : try A * PubSubManager.t * list Event) : try A :=
  fst (fst r).
Definition state_of {A} (r : try A * PubSubManager.t * list Event)
  : PubSubManager.t := snd (fst r).
Definition events_of {A} (r : try A * PubSubManager.t * list Event)
  : list Event := snd r.

(** Values the operating system and the SDK supply at run time. *)
Record Environment : Type := {
  publishResult : string -> PubSubMessage.t -> option TransportError;
  newUUID : UUID;
  now : Date;
  systemUptime : TimeInterval;
  getSystemLoad : option Double;
  getMemoryUsage : option Double
}.

(* ------------------------------------------------------------------ *)
(** ** PubSubManager.swift: the methods *)

(** The body of the main-actor task that [updateConnectionStatus]
    spawns: [connectionStatus = status] and the call of the delegate. *)
Definition connectionStatusTask (status : ConnectionStatus) : Action unit :=
  modify (PubSubManager.set_connectionStatus status);;
  self ← this;
  match PubSubManager.delegate self with
  | Some d => emit (didUpdateConnectionStatus d status)
  | None => mret tt
  end.

(** [updateConnectionStatus]: it only spawns that task and returns; the
    status and the delegate are touched when the main actor gets to run
    the task. *)
Definition updateConnectionStatus (status : ConnectionStatus) : Action unit :=
  emit (task_updateConnectionStatus status).

(** The main actor running spawned status tasks, oldest first. *)
Fixpoint runSpawned (spawned : list ConnectionStatus) : Action unit :=
  match spawned with
  | [] => mret tt
  | status :: rest => connectionStatusTask status;; runSpawned rest
  end.

(** The events up to and including the first frame handed to the
    transport, and those after it; [None] when no frame is handed over. *)
Fixpoint splitAtPublish (events : list Event)
  : option (list Event * list Event) :=
  match events with
  | [] => None
  | e :: rest =>
      match e with
      | pubnub_publish _ _ => Some ([e], rest)
      | _ =>
          match splitAtPublish rest with
          | Some (before, after) => Some (e :: before, after)
          | None => None
          end
      end
  end.

(** [try await call] in a method of the main actor.  A call that hands a
    frame to the transport suspends its caller until the transport has
    answered, and the main actor meanwhile runs the tasks [spawned] so
    far; a call that returns or throws before that does not give the
    actor up. *)
Definition suspending {A} (spawned : list ConnectionStatus)
  (call : Action A) : Action A :=
  fun self =>
    match call self with
    | (r, self1, ev1) =>
        match splitAtPublish ev1 with
        | Some (before, after) =>
            match runSpawned spawned self1 with
            | (_, self2, ev2) => (r, self2, before ++ ev2 ++ after)
            end
        | None => (r, self1, ev1)
        end
    end.

(** [setupPubNub]: [None] when one of the [UInt(_:)] conversions traps. *)
Definition setupPubNub (self : PubSubManager.t)
  : option (try unit * PubSubManager.t * list Event) :=
  let configuration := PubSubManager.configuration self in
  if UInt_representable (PubSubConfiguration.heartbeatInterval configuration)
     && UInt_representable (PubSubConfiguration.presenceTimeout configuration)
  then
    let pubNubConfig :=
      {| pn_publishKey := PubSubConfiguration.publishKey configuration;
         pn_subscribeKey := PubSubConfiguration.subscribeKey configuration;
         pn_userId := PubSubConfiguration.userId configuration;
         pn_heartbeatInterval := PubSubConfiguration.heartbeatInterval configuration;
         pn_presenceTimeout := PubSubConfiguration.presenceTimeout configuration;
         pn_supressLeaveEvents := false;
         pn_requestMessageCountThreshold := 100%N |} in
    Some ((modify (PubSubManager.set_pubnub
                     (Some {| pn_configuration := pubNubConfig |}));;
           emit pubnub_add_listener;;
           emit (log LogLevel.info
                   (PubNubConfigured (PubSubManager.daemonType self)))) self)
  else None.

(** [init(configuration:daemonType:logger:)] *)
Definition PubSubManager_init (configuration : PubSubConfiguration.t)
  (daemonType : DaemonType.t)
  : option (try unit * PubSubManager.t * list Event) :=
  setupPubNub
    {| PubSubManager.pubnub := None;
       PubSubManager.configuration := configuration;
       PubSubManager.daemonType := daemonType;
       PubSubManager.connectionStatus := disconnected;
       PubSubManager.subscribedChannels := ∅;
       PubSubManager.delegate := None;
       PubSubManager.heartbeatTimer := None;
       PubSubManager.pendingResponses := ∅ |}.

Definition getChannelsForDaemonType (self : PubSubManager.t) : list string :=
  let channels := PubSubConfiguration.channels (PubSubManager.configuration self) in
  match PubSubManager.daemonType self with
  | DaemonType.user =>
      [ChannelConfiguration.userChannel channels;
       ChannelConfiguration.heartbeatChannel channels;
       ChannelConfiguration.commandChannel channels;
       ChannelConfiguration.statusChannel channels]
  | DaemonType.system =>
      [ChannelConfiguration.systemChannel channels;
       ChannelConfiguration.heartbeatChannel channels;
       ChannelConfiguration.commandChannel channels;
       ChannelConfiguration.statusChannel channels]
  | DaemonType.broadcast =>
      [ChannelConfiguration.systemChannel channels;
       ChannelConfiguration.userChannel channels;
       ChannelConfiguration.heartbeatChannel channels;
       ChannelConfiguration.commandChannel channels;
       ChannelConfiguration.statusChannel channels]
  end.

(** [getDefaultChannelForMessage]: the switch on [message.messageType]. *)
Definition defaultChannelForType (self : PubSubManager.t)
  (type : MessageType.t) : string :=
  let channels := PubSubConfiguration.channels (PubSubManager.configuration self) in
  match type with
  | MessageType.heartbeat => ChannelConfiguration.heartbeatChannel channels
  | MessageType.systemStatus => ChannelConfiguration.statusChannel channels
  | MessageType.command | MessageType.response =>
      ChannelConfiguration.commandChannel channels
  | MessageType.userActivity => ChannelConfiguration.userChannel channels
  | _ =>
      if decide (PubSubManager.daemonType self = DaemonType.user)
      then ChannelConfiguration.userChannel channels
      else ChannelConfiguration.systemChannel channels
  end.

Definition getDefaultChannelForMessage {T} `{BaseMessage.t T}
  (self : PubSubManager.t) (message : T) : string :=
  defaultChannelForType self (BaseMessage.messageType message).

(** [publish(message:to:)]; the completion handler of [pubnub.publish]
    is run with the result the transport reports. *)
Definition publish {T} `{BaseMessage.t T} (env : Environment) (message : T)
  (channel : option string) : Action unit :=
  self ← this;
  match PubSubManager.pubnub self with
  | None => throw (PubSub notConfigured)
  | Some _ =>
      let targetChannel :=
        default (getDefaultChannelForMessage self message) channel in
      pubSubMessage ← lift_try (PubSubMessage.init message MessagePriority.normal);
      emit (log LogLevel.debug
              (PublishingMessage (BaseMessage.messageType message) targetChannel));;
      emit (pubnub_publish targetChannel pubSubMessage);;
      match publishResult env targetChannel pubSubMessage with
      | None => emit (log LogLevel.debug MessagePublished)
      | Some error =>
          emit (log LogLevel.error (FailedToPublish (Transport error)));;
          throw (Transport error)
      end
  end.

Definition startHeartbeat : Action unit :=
  self ← this;
  let interval :=
    PubSubConfiguration.heartbeatInterval (PubSubManager.configuration self) in
  emit (timer_scheduled interval);;
  modify (PubSubManager.set_heartbeatTimer (Some interval)).

Definition sendHeartbeat (env : Environment) : Action unit :=
  self ← this;
  let uptime := systemUptime env in
  let heartbeat :=
    HeartbeatMessage.init (newUUID env) (now env)
      (PubSubManager.daemonType self) None
      (getSystemLoad env) (getMemoryUsage env) uptime in
  publish env heartbeat
    (Some (ChannelConfiguration.heartbeatChannel
             (PubSubConfiguration.channels (PubSubManager.configuration self)))).


(** [connect].  [try await sendHeartbeat()] is where the method may give
    up the main actor; the status tasks spawned by then are those for
    [connecting] and [connected].  The task for [failed] is spawned in
    the [catch], which throws without suspending again. *)
Definition connect (env : Environment) : Action unit :=
  self ← this;
  match PubSubManager.pubnub self with
  | None => throw (PubSub notConfigured)
  | Some _ =>
      updateConnectionStatus connecting;;
      emit (log LogLevel.info ConnectingToPubNub);;
      do_catch
        (self ← this;
         let channels := getChannelsForDaemonType self in
         emit (pubnub_subscribe channels);;
         modify (PubSubManager.set_subscribedChannels (list_to_set channels));;
         updateConnectionStatus connected;;
         emit (log LogLevel.info (ConnectedAndSubscribed channels));;
         startHeartbeat;;
         suspending [connecting; connected] (sendHeartbeat env))
        (fun error =>
           updateConnectionStatus (failed error);;
           emit (log LogLevel.error (FailedToConnect error));;
           throw error)
  end.

Definition disconnect : Action unit :=
  self ← this;
  match PubSubManager.heartbeatTimer self with
  | Some _ => emit timer_invalidated
  | None => mret tt
  end;;
  modify (PubSubManager.set_heartbeatTimer None);;
  match PubSubManager.pubnub self with
  | Some _ => emit pubnub_unsubscribeAll;; emit pubnub_removeAllListeners
  | None => mret tt
  end;;
  modify (PubSubManager.set_subscribedChannels ∅);;
  updateConnectionStatus disconnected;;
  emit (log LogLevel.info DisconnectedFromPubNub).

(** *** Command and response correlation *)

(** Calling a stored handler. *)
Definition call_handler (h : ResponseHandler) (response : ResponseMessage.t)
  : Action unit :=
  match h with
  | resumeReturning continuation =>
      emit (continuation_resume continuation (returns response))
  end.

(** [pendingResponses.removeValue(forKey:)] *)
Definition removeValue (key : UUID) : Action (option ResponseHandler) :=
  self ← this;
  modify (PubSubManager.set_pendingResponses
            (delete key (PubSubManager.pendingResponses self)));;
  mret (PubSubManager.pendingResponses self !! key).

(** [publishAndWaitForResponse]: the closure that
    [withCheckedThrowingContinuation] runs with the new [continuation].
    It stores the handler, arms the timeout and spawns the publishing
    task. *)
Definition publishAndWaitForResponse (command : CommandMessage.t)
  (channel : option string) (timeout : TimeInterval)
  (continuation : Continuation) : Action unit :=
  self ← this;
  modify (PubSubManager.set_pendingResponses
            (<[CommandMessage.id command := resumeReturning continuation]>
               (PubSubManager.pendingResponses self)));;
  emit (asyncAfter timeout (CommandMessage.id command) continuation);;
  emit (task_publish command channel continuation).

(** The closure given to [asyncAfter], when its deadline is reached. *)
Definition timeoutElapsed (commandId : UUID) (continuation : Continuation)
  : Action unit :=
  removed ← removeValue commandId;
  match removed with
  | Some _ => emit (continuation_resume continuation (throws (PubSub timeout)))
  | None => mret tt
  end.

(** The body of the [Task] that publishes the command. *)
Definition publishTask (env : Environment) (command : CommandMessage.t)
  (channel : option string) (continuation : Continuation) : Action unit :=
  do_catch
    (publish env command channel)
    (fun error =>
       removeValue (CommandMessage.id command);;
       emit (continuation_resume continuation (throws error))).

(** *** Inbound messages *)

(** A received [PubNubMessage] as the guard of [handleReceivedMessage]
    sees it: the [PubSubMessage] that
    [message.payload.jsonStringify?.data(using: .utf8)] and
    [try? JSONDecoder().decode(PubSubMessage.self, from:)] yield, or
    [None] when either is nil. *)
Definition PubNubMessage : Type := option PubSubMessage.t.

Definition decodeMessage (pubSubMessage : PubSubMessage.t) : try AnyMessage :=
  match PubSubMessage.messageType pubSubMessage with
  | MessageType.heartbeat =>
      try! m <- PubSubMessage.decode HeartbeatMessage.t pubSubMessage;
      returns (AnyHeartbeat m)
  | MessageType.systemStatus =>
      try! m <- PubSubMessage.decode SystemStatusMessage.t pubSubMessage;
      returns (AnySystemStatus m)
  | MessageType.command =>
      try! m <- PubSubMessage.decode CommandMessage.t pubSubMessage;
      returns (AnyCommand m)
  | MessageType.response =>
      try! m <- PubSubMessage.decode ResponseMessage.t pubSubMessage;
      returns (AnyResponse m)
  | other => throws (PubSub (unsupportedMessageType other))
  end.

(** The main-actor task at the end of [handleReceivedMessage]. *)
Definition forwardToDelegate (decodedMessage : AnyMessage) : Action unit :=
  self ← this;
  match PubSubManager.delegate self with
  | Some d => emit (didReceiveMessage d decodedMessage)
  | None => mret tt
  end.

Definition handleReceivedMessage (message : PubNubMessage) : Action unit :=
  do_catch
    (match message with
     | None => emit (log LogLevel.warning FailedToDecodePayload)
     | Some pubSubMessage =>
         self ← this;
         if decide (PubSubMessage.source pubSubMessage
                    = PubSubManager.daemonType self)
         then mret tt
         else
           decodedMessage ← lift_try (decodeMessage pubSubMessage);
           emit (log LogLevel.debug
                   (ReceivedMessage (any_messageType decodedMessage)
                                    (any_source decodedMessage)));;
           match as_ResponseMessage decodedMessage with
           | Some responseMessage =>
               removed ← removeValue (ResponseMessage.correlationId responseMessage);
               match removed with
               | Some responseHandler =>
                   call_handler responseHandler responseMessage
               | None => forwardToDelegate decodedMessage
               end
           | None => forwardToDelegate decodedMessage
           end
     end)
    (fun error => emit (log LogLevel.error (FailedToProcess error))).

(** *** Sequential orders

    A list of closures run one after another, each to its end, for the
    statements below that name one particular order.  The program does
    not force its closures into such an order; what holds however they
    overlap is stated over the interleavings further down. *)

Inductive Step : Type :=
| step_receive (message : PubNubMessage)
| step_timeout (commandId : UUID) (continuation : Continuation)
| step_call (command : CommandMessage.t) (channel : option string)
    (timeout : TimeInterval) (continuation : Continuation)
| step_publishTask (env : Environment) (command : CommandMessage.t)
    (channel : option string) (continuation : Continuation).

Definition run_step (s : Step) : Action unit :=
  match s with
  | step_receive message => handleReceivedMessage message
  | step_timeout commandId continuation => timeoutElapsed commandId continuation
  | step_call command channel delay continuation =>
      publishAndWaitForResponse command channel delay continuation
  | step_publishTask env command channel continuation =>
      publishTask env command channel continuation
  end.

Fixpoint run_schedule (steps : list Step) : Action unit :=
  match steps with
  | [] => mret tt
  | s :: rest => run_step s;; run_schedule rest
  end.

(** What continuation [c] is resumed with in a trace, in order. *)
Definition resumption (c : Continuation) (e : Event)
  : option (try ResponseMessage.t) :=
  match e with
  | continuation_resume c' outcome =>
      if Nat.eqb c' c then Some outcome else None
  | _ => None
  end.

Definition resumptions (c : Continuation) (events : list Event)
  : list (try ResponseMessage.t) :=
  omap (resumption c) events.



(** *** Interleavings

    In the program the closures above do not run one after another: the
    timeout closure runs on [DispatchQueue.global()],
    [handleReceivedMessage] on [messageQueue], the publishing task in a
    [Task] of its own, and nothing locks [pendingResponses].  Each of
    them reaches the dictionary in one place, an assignment or a
    [removeValue].  A [Thread] is such a closure cut at that access: what
    is left of it to run, with the values it holds in its local
    variables.  A single access to the dictionary is taken as
    indivisible; the program itself does nothing to make it so. *)
Inductive Thread : Type :=
| timeout_armed (commandId : UUID) (continuation : Continuation)
| timeout_removed (removed : option ResponseHandler)
    (continuation : Continuation)
| receive_queued (message : PubNubMessage)
| receive_decoded (responseMessage : ResponseMessage.t)
| receive_removed (responseMessage : ResponseMessage.t)
    (removed : option ResponseHandler)
| call_entered (env : Environment) (command : CommandMessage.t)
    (channel : option string) (timeout : TimeInterval)
    (continuation : Continuation)
| publish_spawned (env : Environment) (command : CommandMessage.t)
    (channel : option string) (continuation : Continuation)
| publish_failed (command : CommandMessage.t) (continuation : Continuation)
    (error : SwiftError)
| publish_removed (continuation : Continuation) (error : SwiftError)
| finished.

(** One thread runs up to and including its next access to
    [pendingResponses], or to its end.  It returns what is left of it and
    the threads it has started. *)
Definition thread_step (t : Thread) : Action (Thread * list Thread) :=
  match t with
  | timeout_armed commandId continuation =>
      removed ← removeValue commandId;
      mret (timeout_removed removed continuation, [])
  | timeout_removed removed continuation =>
      match removed with
      | Some _ =>
          emit (continuation_resume continuation (throws (PubSub timeout)))
      | None => mret tt
      end;;
      mret (finished, [])
  | receive_queued message =>
      do_catch
        (match message with
         | None =>
             emit (log LogLevel.warning FailedToDecodePayload);;
             mret (finished, [])
         | Some pubSubMessage =>
             self ← this;
             if decide (PubSubMessage.source pubSubMessage
                        = PubSubManager.daemonType self)
             then mret (finished, [])
             else
               decodedMessage ← lift_try (decodeMessage pubSubMessage);
               emit (log LogLevel.debug
                       (ReceivedMessage (any_messageType decodedMessage)
                                        (any_source decodedMessage)));;
               match as_ResponseMessage decodedMessage with
               | Some responseMessage =>
                   mret (receive_decoded responseMessage, [])
               | None =>
                   forwardToDelegate decodedMessage;;
                   mret (finished, [])
               end
         end)
        (fun error =>
           emit (log LogLevel.error (FailedToProcess error));;
           mret (finished, []))
  | receive_decoded responseMessage =>
      removed ← removeValue (ResponseMessage.correlationId responseMessage);
      mret (receive_removed responseMessage removed, [])
  | receive_removed responseMessage removed =>
      match removed with
      | Some responseHandler => call_handler responseHandler responseMessage
      | None => forwardToDelegate (AnyResponse responseMessage)
      end;;
      mret (finished, [])
  | call_entered env command channel delay continuation =>
      publishAndWaitForResponse command channel delay continuation;;
      mret (finished,
            [timeout_armed (CommandMessage.id command) continuation;
             publish_spawned env command channel continuation])
  | publish_spawned env command channel continuation =>
      do_catch
        (publish env command channel;;
         mret (finished, []))
        (fun error => mret (publish_failed command continuation error, []))
  | publish_failed command continuation error =>
      removeValue (CommandMessage.id command);;
      mret (publish_removed continuation error, [])
  | publish_removed continuation error =>
      emit (continuation_resume continuation (throws error));;
      mret (finished, [])
  | finished => mret (finished, [])
  end.


(** A thread run on its own for three steps, which is all any of them
    has. *)
Definition run_thread (t : Thread) : Action Thread :=
  t1 ← thread_step t;
  t2 ← thread_step t1.1;
  t3 ← thread_step t2.1;
  mret t3.1.






Definition invokes_delegate (e : Event) : bool :=
  match e with
  | didReceiveMessage _ _ | didReceiveError _ _
  | didUpdateConnectionStatus _ _ => true
  | _ => false
  end.

Definition invokes_continuation (e : Event) : bool :=
  match e with
  | continuation_resume _ _ => true
  | _ => false
  end.

(** No continuation is resumed in a trace. *)
Definition quiet (events : list Event) : Prop :=
  forallb (fun e => negb (invokes_continuation e)) events = true.

(** A small program logic for "the transport handle is set": an action
    run on a manager that has its handle keeps it, never throws
    [notConfigured], and returns a value satisfying [Q]. *)
Definition configured (self : PubSubManager.t) : Prop :=
  is_Some (PubSubManager.pubnub self).

Definition keeps_configured {A} (a : Action A) (Q : A -> Prop) : Prop :=
  forall self, configured self ->
    configured (state_of (a self))
    /\ match result_of (a self) with
       | returns x => Q x
       | throws e => e <> PubSub notConfigured
       end.

(* ------------------------------------------------------------------ *)
(** ** Sample values *)

Definition sampleHeartbeat : HeartbeatMessage.t :=
  HeartbeatMessage.init 17%N 1000%float DaemonType.system None
    (Some 1.5%float) None 3600%float.

Definition sampleStatus : SystemStatusMessage.t :=
  SystemStatusMessage.init 18%N 1001%float DaemonType.system
    (Some DaemonType.user) SystemStatus.degraded (Some {["disk" := "full"]}).

Definition sampleCommand : CommandMessage.t :=
  CommandMessage.init 19%N 1002%float DaemonType.user (Some DaemonType.system)
    "restart" None MessagePriority.high true.

Definition sampleResponse : ResponseMessage.t :=
  ResponseMessage.init 20%N 1003%float DaemonType.system (Some DaemonType.user)
    19%N true (Some "done") None.

Definition sampleHeartbeatFrame : PubSubMessage.t :=
  {| PubSubMessage.messageType := MessageType.heartbeat;
     PubSubMessage.payload :=
       EKeyed [("id", EUUID 17%N); ("timestamp", ENumber 1000%float);
               ("messageType", EString "heartbeat");
               ("source", EString "system_daemon");
               ("systemLoad", ENumber 1.5%float);
               ("uptime", ENumber 3600%float)];
     PubSubMessage.priority := MessagePriority.normal;
     PubSubMessage.source := DaemonType.system;
     PubSubMessage.target := None |}.

Definition sampleStatusFrame : PubSubMessage.t :=
  {| PubSubMessage.messageType := MessageType.systemStatus;
     PubSubMessage.payload :=
       EKeyed [("id", EUUID 18%N); ("timestamp", ENumber 1001%float);
               ("messageType", EString "system_status");
               ("source", EString "system_daemon");
               ("target", EString "user_daemon");
               ("status", EString "degraded");
               ("details", EKeyed [("disk", EString "full")])];
     PubSubMessage.priority := MessagePriority.normal;
     PubSubMessage.source := DaemonType.system;
     PubSubMessage.target := Some DaemonType.user |}.

Definition sampleCommandFrame : PubSubMessage.t :=
  {| PubSubMessage.messageType := MessageType.command;
     PubSubMessage.payload :=
       EKeyed [("id", EUUID 19%N); ("timestamp", ENumber 1002%float);
               ("messageType", EString "command");
               ("source", EString "user_daemon");
               ("target", EString "system_daemon");
               ("command", EString "restart");
               ("priority", EString "high");
               ("requiresResponse", EBool true)];
     PubSubMessage.priority := MessagePriority.normal;
     PubSubMessage.source := DaemonType.user;
     PubSubMessage.target := Some DaemonType.system |}.

Definition sampleResponseFrame : PubSubMessage.t :=
  {| PubSubMessage.messageType := MessageType.response;
     PubSubMessage.payload :=
       EKeyed [("id", EUUID 20%N); ("timestamp", ENumber 1003%float);
               ("messageType", EString "response");
               ("source", EString "system_daemon");
               ("target", EString "user_daemon");
               ("correlationId", EUUID 19%N);
               ("success", EBool true);
               ("result", EString "done")];
     PubSubMessage.priority := MessagePriority.normal;
     PubSubMessage.source := DaemonType.system;
     PubSubMessage.target := Some DaemonType.user |}.

Definition sampleConfiguration : PubSubConfiguration.t :=
  PubSubConfiguration.default (fun _ => None) "F3A1".

(** A manager as [init] leaves it, with a role, a delegate and a table of
    pending responses of one's choice. *)
Definition sampleManager (role : DaemonType.t) (delegate : option Delegate)
  (pending : gmap UUID ResponseHandler) : PubSubManager.t :=
  {| PubSubManager.pubnub :=
       Some {| pn_configuration :=
                 {| pn_publishKey := "demo"; pn_subscribeKey := "demo";
                    pn_userId := "F3A1";
                    pn_heartbeatInterval := 30%float;
                    pn_presenceTimeout := 300%float;
                    pn_supressLeaveEvents := false;
                    pn_requestMessageCountThreshold := 100%N |} |};
     PubSubManager.configuration := sampleConfiguration;
     PubSubManager.daemonType := role;
     PubSubManager.connectionStatus := disconnected;
     PubSubManager.subscribedChannels := ∅;
     PubSubManager.delegate := delegate;
     PubSubManager.heartbeatTimer := None;
     PubSubManager.pendingResponses := pending |}.

Definition sampleBroadcastHeartbeat : HeartbeatMessage.t :=
  HeartbeatMessage.init 21%N 1004%float DaemonType.broadcast None
    None None 60%float.

Definition sampleBroadcastFrame : PubSubMessage.t :=
  {| PubSubMessage.messageType := MessageType.heartbeat;
     PubSubMessage.payload :=
       EKeyed [("id", EUUID 21%N); ("timestamp", ENumber 1004%float);
               ("messageType", EString "heartbeat");
               ("source", EString "broadcast");
               ("uptime", ENumber 60%float)];
     PubSubMessage.priority := MessagePriority.normal;
     PubSubMessage.source := DaemonType.broadcast;
     PubSubMessage.target := None |}.

(** A frame of a kind no payload type exists for. *)
Definition sampleShutdownFrame (source : DaemonType.t) : PubSubMessage.t :=
  {| PubSubMessage.messageType := MessageType.shutdown;
     PubSubMessage.payload := EKeyed [];
     PubSubMessage.priority := MessagePriority.critical;
     PubSubMessage.source := source;
     PubSubMessage.target := None |}.

(** The heartbeat frame of the system daemon, readdressed on the wire. *)
Definition sampleReaddressedFrame : PubSubMessage.t :=
  PubSubMessage_withAddress sampleHeartbeatFrame DaemonType.user
    (Some DaemonType.broadcast).

(** A heartbeat frame whose payload names another kind. *)
Definition sampleMislabelledFrame : PubSubMessage.t :=
  {| PubSubMessage.messageType := MessageType.heartbeat;
     PubSubMessage.payload :=
       EKeyed [("id", EUUID 17%N); ("timestamp", ENumber 1000%float);
               ("messageType", EString "command");
               ("source", EString "system_daemon");
               ("systemLoad", ENumber 1.5%float);
               ("uptime", ENumber 3600%float)];
     PubSubMessage.priority := MessagePriority.normal;
     PubSubMessage.source := DaemonType.system;
     PubSubMessage.target := None |}.

Definition sampleEnvironment (outcome : option TransportError) : Environment :=
  {| publishResult := fun _ _ => outcome;
     newUUID := 33%N;
     now := 2000%float;
     systemUptime := 7200%float;
     getSystemLoad := Some 0.25%float;
     getMemoryUsage := Some 48%float |}.

(** A user-role manager with a delegate, waiting for the response to
    [sampleCommand] on continuation 1. *)
Definition sampleWaitingManager : PubSubManager.t :=
  PubSubManager.set_pendingResponses (<[19%N := resumeReturning 1]> ∅)
    (sampleManager DaemonType.user (Some 7) ∅).




(* ------------------------------------------------------------------ *)
(** ** Frames as they may arrive from the wire *)

(** A frame with another declared kind. *)
Definition PubSubMessage_withKind (f : PubSubMessage.t)
  (kind : MessageType.t) : PubSubMessage.t :=
  {| PubSubMessage.messageType := kind;
     PubSubMessage.payload := PubSubMessage.payload f;
     PubSubMessage.priority := PubSubMessage.priority f;
     PubSubMessage.source := PubSubMessage.source f;
     PubSubMessage.target := PubSubMessage.target f |}.

(** The coding keys of the four messages, in declaration order. *)
Definition HeartbeatMessage_codingKeys : list string :=
  ["id"; "timestamp"; "messageType"; "source"; "target";
   "systemLoad"; "memoryUsage"; "uptime"].

Definition SystemStatusMessage_codingKeys : list string :=
  ["id"; "timestamp"; "messageType"; "source"; "target"; "status"; "details"].

Definition CommandMessage_codingKeys : list string :=
  ["id"; "timestamp"; "messageType"; "source"; "target";
   "command"; "parameters"; "priority"; "requiresResponse"].

Definition ResponseMessage_codingKeys : list string :=
  ["id"; "timestamp"; "messageType"; "source"; "target";
   "correlationId"; "success"; "result"; "errorMessage"].

(* ------------------------------------------------------------------ *)
(** ** Descriptions of runs *)

(** What the delegate, if any, is told about a status. *)
Definition statusNotification (self : PubSubManager.t)
  (status : ConnectionStatus) : list Event :=
  match PubSubManager.delegate self with
  | Some d => [didUpdateConnectionStatus d status]
  | None => []
  end.

(** The statuses of the tasks that [updateConnectionStatus] has spawned
    in a trace, in order. *)
Definition spawnedStatuses (events : list Event) : list ConnectionStatus :=
  omap (fun e => match e with
                 | task_updateConnectionStatus status => Some status
                 | _ => None
                 end) events.

(** The heartbeat that [sendHeartbeat] builds from the environment. *)
Definition heartbeatOf (env : Environment) (self : PubSubManager.t)
  : HeartbeatMessage.t :=
  HeartbeatMessage.init (newUUID env) (now env)
    (PubSubManager.daemonType self) None
    (getSystemLoad env) (getMemoryUsage env) (systemUptime env).

(** The manager when [connect] resumes after its heartbeat was handed
    to the transport: channels recorded, timer armed, and the two status
    tasks run. *)
Definition connectedState (self : PubSubManager.t) : PubSubManager.t :=
  PubSubManager.set_connectionStatus connected
    (PubSubManager.set_connectionStatus connecting
       (PubSubManager.set_heartbeatTimer
          (Some (PubSubConfiguration.heartbeatInterval
                   (PubSubManager.configuration self)))
          (PubSubManager.set_subscribedChannels
             (list_to_set (getChannelsForDaemonType self)) self))).


(** The frame of the first heartbeat of the sample system daemon. *)
Definition sampleConnectFrame : PubSubMessage.t :=
  {| PubSubMessage.messageType := MessageType.heartbeat;
     PubSubMessage.payload :=
       EKeyed [("id", EUUID 33%N); ("timestamp", ENumber 2000%float);
               ("messageType", EString "heartbeat");
               ("source", EString "system_daemon");
               ("systemLoad", ENumber 0.25%float);
               ("memoryUsage", ENumber 48%float);
               ("uptime", ENumber 7200%float)];
     PubSubMessage.priority := MessagePriority.normal;
     PubSubMessage.source := DaemonType.system;
     PubSubMessage.target := None |}.

Definition is_transport_call (e : Event) : bool :=
  match e with
  | pubnub_add_listener | pubnub_subscribe _ | pubnub_unsubscribeAll
  | pubnub_removeAllListeners | pubnub_publish _ _ => true
  | _ => false
  end.

(* ------------------------------------------------------------------ *)
(** ** Logger.swift *)

(** [Logger.Level] of swift-log and [OSLogType] of os.log. *)
Module SwiftLogLevel.
Inductive t : Type := trace | debug | info | notice | warning | error | critical.
End SwiftLogLevel.

Module OSLogType.
Inductive t : Type := debug | info | default | error | fault.
End OSLogType.

(** [extension LogLevel]: [swiftLogLevel], [osLogType], [from(swiftLevel:)]. *)
Definition LogLevel_swiftLogLevel (self : LogLevel.t) : SwiftLogLevel.t :=
  match self with
  | LogLevel.trace => SwiftLogLevel.trace
  | LogLevel.debug => SwiftLogLevel.debug
  | LogLevel.info => SwiftLogLevel.info
  | LogLevel.notice => SwiftLogLevel.notice
  | LogLevel.warning => SwiftLogLevel.warning
  | LogLevel.error => SwiftLogLevel.error
  | LogLevel.critical => SwiftLogLevel.critical
  end.

Definition LogLevel_osLogType (self : LogLevel.t) : OSLogType.t :=
  match self with
  | LogLevel.trace | LogLevel.debug => OSLogType.debug
  | LogLevel.info | LogLevel.notice => OSLogType.info
  | LogLevel.warning => OSLogType.default
  | LogLevel.error => OSLogType.error
  | LogLevel.critical => OSLogType.fault
  end.

Definition LogLevel_from (swiftLevel : SwiftLogLevel.t) : LogLevel.t :=
  match swiftLevel with
  | SwiftLogLevel.trace => LogLevel.trace
  | SwiftLogLevel.debug => LogLevel.debug
  | SwiftLogLevel.info => LogLevel.info
  | SwiftLogLevel.notice => LogLevel.notice
  | SwiftLogLevel.warning => LogLevel.warning
  | SwiftLogLevel.error => LogLevel.error
  | SwiftLogLevel.critical => LogLevel.critical
  end.

Module LoggingConfiguration.
Record t : Type := {
  logLevel : LogLevel.t;
  logToFile : bool;
  logFilePath : option string;
  maxLogFileSize : Z;
  logRotationCount : Z
}.

(** [init] with its default arguments 10_485_760 and 5. *)
Definition init (logLevel : LogLevel.t) (logToFile : bool)
  (logFilePath : option string) : t :=
  {| logLevel := logLevel; logToFile := logToFile;
     logFilePath := logFilePath;
     maxLogFileSize := 10485760%Z; logRotationCount := 5%Z |}.

Definition default : t := init LogLevel.info true (Some "/var/log/dualdaemon").
End LoggingConfiguration.

(** The log files of one daemon in its log directory: index 0 is the log
    file itself, index [i] is [logFile.appendingPathExtension("\(i)")];
    each holds its bytes. *)
Definition LogFiles : Type := gmap nat (list Byte.byte).

(** [FileManager.moveItem(at:to:)]: it throws when the source does not
    exist or when something already exists at the destination. *)
Definition moveItem (src dst : nat) (files : gmap nat (list Byte.byte))
  : option (gmap nat (list Byte.byte)) :=
  match files !! src with
  | None => None
  | Some contents =>
      match files !! dst with
      | Some _ => None
      | None => Some (<[dst := contents]> (delete src files))
      end
  end.

(** [try? FileManager.default.moveItem(at:to:)] *)
Definition try_moveItem (src dst : nat) (files : gmap nat (list Byte.byte))
  : gmap nat (list Byte.byte) :=
  default files (moveItem src dst files).

(** One turn of the loop of [rotateLogFile]. *)
Definition rotateLogFile_body (files : gmap nat (list Byte.byte)) (i : nat)
  : gmap nat (list Byte.byte) :=
  match files !! i with
  | Some _ => try_moveItem i (i + 1) files
  | None => files
  end.

(** [rotateLogFile]: [None] when the range [1..<logRotationCount] traps
    (a count below 1). *)
Definition rotateLogFile (configuration : LoggingConfiguration.t)
  (files : gmap nat (list Byte.byte)) : option (gmap nat (list Byte.byte)) :=
  let count := LoggingConfiguration.logRotationCount configuration in
  if (count <? 1)%Z then None
  else
    let reversed := rev (seq 1 (Z.to_nat (count - 1))) in
    Some (try_moveItem 0 1 (foldl rotateLogFile_body files reversed)).

(** [setupFileLogging], as far as the log files go. *)
Definition setupFileLogging (configuration : LoggingConfiguration.t)
  (files : gmap nat (list Byte.byte)) : option (gmap nat (list Byte.byte)) :=
  match LoggingConfiguration.logFilePath configuration with
  | None => Some files
  | Some _ =>
      match files !! 0 with
      | Some contents =>
          if (Z.of_nat (length contents)
              >? LoggingConfiguration.maxLogFileSize configuration)%Z
          then rotateLogFile configuration files
          else Some files
      | None => Some files
      end
  end.

(** [DaemonLogger.init], as far as the log files go. *)
Definition DaemonLogger_init (configuration : LoggingConfiguration.t)
  (files : gmap nat (list Byte.byte)) : option (gmap nat (list Byte.byte)) :=
  if LoggingConfiguration.logToFile configuration
  then setupFileLogging configuration files
  else Some files.

(** A log file and one rotated file; and a directory in which every
    rotated name up to the default count of 5 is taken. *)
Definition sampleLogFiles : gmap nat (list Byte.byte) :=
  {[ 0 := [Byte.x6c; Byte.x6f; Byte.x67]; 1 := [Byte.x6f; Byte.x6c; Byte.x64] ]}.

Definition sampleFullLogFiles : gmap nat (list Byte.byte) :=
  list_to_map
    [(0, [Byte.x30]); (1, [Byte.x31]); (2, [Byte.x32]); (3, [Byte.x33]);
     (4, [Byte.x34]); (5, [Byte.x35])].

(* ================================================================== *)
(** * Properties *)

(** ** Raw values *)

Lemma MessageType_rawValue_roundtrip (x : MessageType.t) :
  MessageType.init_rawValue (MessageType.rawValue x) = Some x.
Proof. destruct x; reflexivity. Qed.

Lemma DaemonType_rawValue_roundtrip (x : DaemonType.t) :
  DaemonType.init_rawValue (DaemonType.rawValue x) = Some x.
Proof. destruct x; reflexivity. Qed.

Lemma MessagePriority_rawValue_roundtrip (x : MessagePriority.t) :
  MessagePriority.init_rawValue (MessagePriority.rawValue x) = Some x.
Proof. destruct x; reflexivity. Qed.

Lemma SystemStatus_rawValue_roundtrip (x : SystemStatus.t) :
  SystemStatus.init_rawValue (SystemStatus.rawValue x) = Some x.
Proof. destruct x; reflexivity. Qed.

(** ** The codec of the leaves *)

Lemma leafRaw_encodeRaw {A} (rawValue : A -> string)
  (init_rawValue : string -> option A) (key : string) (a : A) :
  init_rawValue (rawValue a) = Some a ->
  leafRaw init_rawValue key (encodeRaw rawValue a) = returns a.
Proof. intros E. unfold leafRaw, encodeRaw. simpl. by rewrite E. Qed.

Lemma encodeDouble_returns (key : string) (d : Double) (v : Encoded) :
  encodeDouble key d = returns v -> v = ENumber d.
Proof.
  unfold encodeDouble. destruct (is_finite d); intros E; by inversion E.
Qed.

Lemma encodeDoubleIfPresent_returns (key : string) (d : option Double)
  (l : list (string * Encoded)) :
  encodeDoubleIfPresent key d = returns l ->
  l = encodeIfPresent ENumber key d.
Proof.
  destruct d as [x|]; simpl.
  - unfold encodeDouble. destruct (is_finite x); simpl; intros E; by inversion E.
  - intros E; by inversion E.
Qed.

Lemma decodeStringEntries_encode (key : string) (l : list (string * string)) :
  decodeStringEntries key
    (List.map (fun kv => (fst kv, EString (snd kv))) l) = returns l.
Proof.
  induction l as [|[k v] l IH]; simpl; [done|]. by rewrite IH.
Qed.

Lemma leafDictionary_encodeDictionary (key : string) (d : gmap string string) :
  leafDictionary key (encodeDictionary d) = returns d.
Proof.
  unfold leafDictionary, encodeDictionary.
  rewrite decodeStringEntries_encode. simpl.
  by rewrite list_to_map_to_list.
Qed.

(** ** Synthesized [Codable] conformances: decoding what was encoded *)

Ltac decode_encoded :=
  unfold decodeKey, decodeKeyIfPresent; simpl;
  rewrite ?(leafRaw_encodeRaw _ _ _ _ (DaemonType_rawValue_roundtrip _)),
          ?(leafRaw_encodeRaw _ _ _ _ (MessagePriority_rawValue_roundtrip _)),
          ?(leafRaw_encodeRaw _ _ _ _ (SystemStatus_rawValue_roundtrip _)),
          ?decodeStringEntries_encode;
  simpl; rewrite ?list_to_map_to_list.

Lemma HeartbeatMessage_roundtrip (m : HeartbeatMessage.t) (d : Data) :
  HeartbeatMessage.encode m = returns d ->
  HeartbeatMessage.decode d = returns m.
Proof.
  destruct m as [i ts src tgt load mem up].
  unfold HeartbeatMessage.encode. simpl.
  destruct (encodeDouble "timestamp" ts) as [v|] eqn:E1; simpl; [|discriminate].
  apply encodeDouble_returns in E1 as ->.
  destruct (encodeDoubleIfPresent "systemLoad" load) as [l1|] eqn:E2;
    simpl; [|discriminate].
  apply encodeDoubleIfPresent_returns in E2 as ->.
  destruct (encodeDoubleIfPresent "memoryUsage" mem) as [l2|] eqn:E3;
    simpl; [|discriminate].
  apply encodeDoubleIfPresent_returns in E3 as ->.
  destruct (encodeDouble "uptime" up) as [w|] eqn:E4; simpl; [|discriminate].
  apply encodeDouble_returns in E4 as ->.
  intros [= <-].
  unfold HeartbeatMessage.decode.
  destruct tgt as [tgt|], load as [load|], mem as [mem|]; simpl;
    repeat decode_encoded; reflexivity.
Qed.

Lemma SystemStatusMessage_roundtrip (m : SystemStatusMessage.t) (d : Data) :
  SystemStatusMessage.encode m = returns d ->
  SystemStatusMessage.decode d = returns m.
Proof.
  destruct m as [i ts src tgt st det].
  unfold SystemStatusMessage.encode. simpl.
  destruct (encodeDouble "timestamp" ts) as [v|] eqn:E1; simpl; [|discriminate].
  apply encodeDouble_returns in E1 as ->.
  intros [= <-].
  unfold SystemStatusMessage.decode.
  destruct tgt as [tgt|], det as [det|]; simpl;
    repeat decode_encoded; reflexivity.
Qed.

Lemma CommandMessage_roundtrip (m : CommandMessage.t) (d : Data) :
  CommandMessage.encode m = returns d ->
  CommandMessage.decode d = returns m.
Proof.
  destruct m as [i ts src tgt cmd par pri req].
  unfold CommandMessage.encode. simpl.
  destruct (encodeDouble "timestamp" ts) as [v|] eqn:E1; simpl; [|discriminate].
  apply encodeDouble_returns in E1 as ->.
  intros [= <-].
  unfold CommandMessage.decode.
  destruct tgt as [tgt|], par as [par|]; simpl;
    repeat decode_encoded; reflexivity.
Qed.

Lemma ResponseMessage_roundtrip (m : ResponseMessage.t) (d : Data) :
  ResponseMessage.encode m = returns d ->
  ResponseMessage.decode d = returns m.
Proof.
  destruct m as [i ts src tgt cid ok res err].
  unfold ResponseMessage.encode. simpl.
  destruct (encodeDouble "timestamp" ts) as [v|] eqn:E1; simpl; [|discriminate].
  apply encodeDouble_returns in E1 as ->.
  intros [= <-].
  unfold ResponseMessage.decode.
  destruct tgt as [tgt|], res as [res|], err as [err|]; simpl;
    repeat decode_encoded; reflexivity.
Qed.

(** Wrapping succeeds exactly when every [Double] to encode is finite. *)
Lemma HeartbeatMessage_init_returns (m : HeartbeatMessage.t)
  (p : MessagePriority.t) :
  is_finite (HeartbeatMessage.timestamp m) = true ->
  from_option is_finite true (HeartbeatMessage.systemLoad m) = true ->
  from_option is_finite true (HeartbeatMessage.memoryUsage m) = true ->
  is_finite (HeartbeatMessage.uptime m) = true ->
  exists frame, PubSubMessage.init m p = returns frame.
Proof.
  destruct m as [i ts src tgt load mem up]; simpl. intros H1 H2 H3 H4.
  unfold PubSubMessage.init; simpl.
  unfold HeartbeatMessage.encode, encodeDoubleIfPresent, encodeDouble; simpl.
  rewrite H1, H4.
  destruct load as [load|], mem as [mem|]; simpl in *;
    rewrite ?H2, ?H3; simpl; eauto.
Qed.

Lemma SystemStatusMessage_init_returns (m : SystemStatusMessage.t)
  (p : MessagePriority.t) :
  is_finite (SystemStatusMessage.timestamp m) = true ->
  exists frame, PubSubMessage.init m p = returns frame.
Proof.
  intros H. unfold PubSubMessage.init; simpl.
  unfold SystemStatusMessage.encode, encodeDouble. rewrite H. simpl. eauto.
Qed.

Lemma CommandMessage_init_returns (m : CommandMessage.t)
  (p : MessagePriority.t) :
  is_finite (CommandMessage.timestamp m) = true ->
  exists frame, PubSubMessage.init m p = returns frame.
Proof.
  intros H. unfold PubSubMessage.init; simpl.
  unfold CommandMessage.encode, encodeDouble. rewrite H. simpl. eauto.
Qed.

Lemma ResponseMessage_init_returns (m : ResponseMessage.t)
  (p : MessagePriority.t) :
  is_finite (ResponseMessage.timestamp m) = true ->
  exists frame, PubSubMessage.init m p = returns frame.
Proof.
  intros H. unfold PubSubMessage.init; simpl.
  unfold ResponseMessage.encode, encodeDouble. rewrite H. simpl. eauto.
Qed.

Lemma PubSubMessage_init_fields {T} `{BaseMessage.t T} (message : T)
  (p : MessagePriority.t) (frame : PubSubMessage.t) :
  PubSubMessage.init message p = returns frame ->
  BaseMessage.encode message = returns (PubSubMessage.payload frame)
  /\ PubSubMessage.messageType frame = BaseMessage.messageType message
  /\ PubSubMessage.source frame = BaseMessage.source message
  /\ PubSubMessage.target frame = BaseMessage.target message
  /\ PubSubMessage.priority frame = p.
Proof.
  unfold PubSubMessage.init.
  destruct (BaseMessage.encode message) as [d|]; simpl; [|discriminate].
  intros [= <-]. simpl. auto.
Qed.

(** [C1] Round trip: for each of the four payload variants, a frame
    built by [PubSubMessage.init] (with any priority) decodes, through
    [decode(as:)] at the same type, to the message it was built from. *)
Theorem C1_wrap_then_decode_roundtrip :
  (forall (m : HeartbeatMessage.t) p frame,
      PubSubMessage.init m p = returns frame ->
      PubSubMessage.decode HeartbeatMessage.t frame = returns m)
  /\ (forall (m : SystemStatusMessage.t) p frame,
      PubSubMessage.init m p = returns frame ->
      PubSubMessage.decode SystemStatusMessage.t frame = returns m)
  /\ (forall (m : CommandMessage.t) p frame,
      PubSubMessage.init m p = returns frame ->
      PubSubMessage.decode CommandMessage.t frame = returns m)
  /\ (forall (m : ResponseMessage.t) p frame,
      PubSubMessage.init m p = returns frame ->
      PubSubMessage.decode ResponseMessage.t frame = returns m).
Proof.
  repeat split; intros m p frame Hinit;
    apply PubSubMessage_init_fields in Hinit as [Henc _];
    unfold PubSubMessage.decode; simpl in *.
  - by apply HeartbeatMessage_roundtrip.
  - by apply SystemStatusMessage_roundtrip.
  - by apply CommandMessage_roundtrip.
  - by apply ResponseMessage_roundtrip.
Qed.

Lemma C1_wrap_then_decode_roundtrip_witness :
  (PubSubMessage.init sampleHeartbeat MessagePriority.normal
     = returns sampleHeartbeatFrame
   /\ PubSubMessage.decode HeartbeatMessage.t sampleHeartbeatFrame
     = returns sampleHeartbeat)
  /\ (PubSubMessage.init sampleStatus MessagePriority.normal
     = returns sampleStatusFrame
   /\ PubSubMessage.decode SystemStatusMessage.t sampleStatusFrame
     = returns sampleStatus)
  /\ (PubSubMessage.init sampleCommand MessagePriority.normal
     = returns sampleCommandFrame
   /\ PubSubMessage.decode CommandMessage.t sampleCommandFrame
     = returns sampleCommand)
  /\ (PubSubMessage.init sampleResponse MessagePriority.normal
     = returns sampleResponseFrame
   /\ PubSubMessage.decode ResponseMessage.t sampleResponseFrame
     = returns sampleResponse).
Proof.
  destruct C1_wrap_then_decode_roundtrip as (H1 & H2 & H3 & H4).
  assert (E1 : PubSubMessage.init sampleHeartbeat MessagePriority.normal
               = returns sampleHeartbeatFrame) by (vm_compute; reflexivity).
  assert (E2 : PubSubMessage.init sampleStatus MessagePriority.normal
               = returns sampleStatusFrame) by (vm_compute; reflexivity).
  assert (E3 : PubSubMessage.init sampleCommand MessagePriority.normal
               = returns sampleCommandFrame) by (vm_compute; reflexivity).
  assert (E4 : PubSubMessage.init sampleResponse MessagePriority.normal
               = returns sampleResponseFrame) by (vm_compute; reflexivity).
  exact (conj (conj E1 (H1 _ _ _ E1))
          (conj (conj E2 (H2 _ _ _ E2))
             (conj (conj E3 (H3 _ _ _ E3)) (conj E4 (H4 _ _ _ E4))))).
Defined.

(** ** Channel routing *)

(** [C7] The channels subscribed for a role: user gives exactly user,
    heartbeat, command and status (the system channel is not among them
    when the five configured names are distinct), system gives system,
    heartbeat, command and status, broadcast gives all five. *)
Theorem C7_channels_by_role (self : PubSubManager.t) :
  let channels := PubSubConfiguration.channels (PubSubManager.configuration self) in
  (PubSubManager.daemonType self = DaemonType.user ->
     getChannelsForDaemonType self =
       [ChannelConfiguration.userChannel channels;
        ChannelConfiguration.heartbeatChannel channels;
        ChannelConfiguration.commandChannel channels;
        ChannelConfiguration.statusChannel channels]
     /\ (NoDup [ChannelConfiguration.systemChannel channels;
                ChannelConfiguration.userChannel channels;
                ChannelConfiguration.heartbeatChannel channels;
                ChannelConfiguration.commandChannel channels;
                ChannelConfiguration.statusChannel channels] ->
         ChannelConfiguration.systemChannel channels
           ∉ getChannelsForDaemonType self))
  /\ (PubSubManager.daemonType self = DaemonType.system ->
     getChannelsForDaemonType self =
       [ChannelConfiguration.systemChannel channels;
        ChannelConfiguration.heartbeatChannel channels;
        ChannelConfiguration.commandChannel channels;
        ChannelConfiguration.statusChannel channels])
  /\ (PubSubManager.daemonType self = DaemonType.broadcast ->
     getChannelsForDaemonType self =
       [ChannelConfiguration.systemChannel channels;
        ChannelConfiguration.userChannel channels;
        ChannelConfiguration.heartbeatChannel channels;
        ChannelConfiguration.commandChannel channels;
        ChannelConfiguration.statusChannel channels]).
Proof.
  intros channels. unfold getChannelsForDaemonType. fold channels.
  split; [|split]; intros Hrole; rewrite Hrole; try reflexivity.
  split; [reflexivity|].
  intros Hdup. apply NoDup_cons in Hdup as [Hnotin _]. exact Hnotin.
Qed.

Lemma C7_channels_by_role_witness :
  (getChannelsForDaemonType (sampleManager DaemonType.user None ∅) =
     ["dualdaemon.user"; "dualdaemon.heartbeat"; "dualdaemon.command";
      "dualdaemon.status"]
   /\ "dualdaemon.system"
        ∉ getChannelsForDaemonType (sampleManager DaemonType.user None ∅))
  /\ getChannelsForDaemonType (sampleManager DaemonType.system None ∅) =
     ["dualdaemon.system"; "dualdaemon.heartbeat"; "dualdaemon.command";
      "dualdaemon.status"]
  /\ getChannelsForDaemonType (sampleManager DaemonType.broadcast None ∅) =
     ["dualdaemon.system"; "dualdaemon.user"; "dualdaemon.heartbeat";
      "dualdaemon.command"; "dualdaemon.status"].
Proof.
  assert (Hdup : NoDup ["dualdaemon.system"; "dualdaemon.user";
                        "dualdaemon.heartbeat"; "dualdaemon.command";
                        "dualdaemon.status"])
    by (apply (bool_decide_unpack _); vm_compute; reflexivity).
  pose proof (C7_channels_by_role (sampleManager DaemonType.user None ∅))
    as (Hu & _ & _).
  pose proof (C7_channels_by_role (sampleManager DaemonType.system None ∅))
    as (_ & Hs & _).
  pose proof (C7_channels_by_role (sampleManager DaemonType.broadcast None ∅))
    as (_ & _ & Hb).
  destruct (Hu eq_refl) as [Hu1 Hu2].
  exact (conj (conj Hu1 (Hu2 Hdup)) (conj (Hs eq_refl) (Hb eq_refl))).
Defined.

(** [C8] The default publish channel of a message kind: heartbeat goes to
    the heartbeat channel, system status to the status channel, command
    and response to the command channel, user activity to the user
    channel, and configuration, error and shutdown to the user channel
    for the user role and to the system channel for the other roles;
    [getDefaultChannelForMessage] applies this to the kind of its
    message. *)
Theorem C8_default_channel_by_kind (self : PubSubManager.t) :
  let channels := PubSubConfiguration.channels (PubSubManager.configuration self) in
  let primary :=
    match PubSubManager.daemonType self with
    | DaemonType.user => ChannelConfiguration.userChannel channels
    | DaemonType.system | DaemonType.broadcast =>
        ChannelConfiguration.systemChannel channels
    end in
  defaultChannelForType self MessageType.heartbeat
    = ChannelConfiguration.heartbeatChannel channels
  /\ defaultChannelForType self MessageType.systemStatus
    = ChannelConfiguration.statusChannel channels
  /\ defaultChannelForType self MessageType.command
    = ChannelConfiguration.commandChannel channels
  /\ defaultChannelForType self MessageType.response
    = ChannelConfiguration.commandChannel channels
  /\ defaultChannelForType self MessageType.userActivity
    = ChannelConfiguration.userChannel channels
  /\ defaultChannelForType self MessageType.configuration = primary
  /\ defaultChannelForType self MessageType.error = primary
  /\ defaultChannelForType self MessageType.shutdown = primary
  /\ (forall T (B : BaseMessage.t T) (message : T),
       getDefaultChannelForMessage self message
       = defaultChannelForType self (BaseMessage.messageType message)).
Proof.
  intros channels primary. subst primary channels.
  repeat (split;
    [unfold defaultChannelForType;
     destruct (PubSubManager.daemonType self); reflexivity|]).
  intros T B message. reflexivity.
Qed.

(** ** Running the dispatcher *)

Ltac run_action :=
  unfold do_catch, mbind, mret, Action_MBind, Action_MRet, Action_bind,
    Action_ret, lift_try, emit, this, modify, throw; simpl.

Lemma set_pendingResponses_same (self : PubSubManager.t) :
  PubSubManager.set_pendingResponses (PubSubManager.pendingResponses self) self
  = self.
Proof. by destruct self. Qed.

Lemma set_pendingResponses_delete_absent (self : PubSubManager.t) (k : UUID) :
  PubSubManager.pendingResponses self !! k = None ->
  PubSubManager.set_pendingResponses
    (delete k (PubSubManager.pendingResponses self)) self = self.
Proof.
  intros E. rewrite delete_id by exact E. apply set_pendingResponses_same.
Qed.

Lemma handleReceivedMessage_self_echo (f : PubSubMessage.t)
  (self : PubSubManager.t) :
  PubSubMessage.source f = PubSubManager.daemonType self ->
  handleReceivedMessage (Some f) self = (returns tt, self, []).
Proof.
  intros E. unfold handleReceivedMessage. run_action.
  destruct (decide _) as [_|N]; [reflexivity | contradiction].
Qed.

Lemma handleReceivedMessage_decode_throws (f : PubSubMessage.t)
  (self : PubSubManager.t) (e : SwiftError) :
  PubSubMessage.source f <> PubSubManager.daemonType self ->
  decodeMessage f = throws e ->
  handleReceivedMessage (Some f) self
  = (returns tt, self, [log LogLevel.error (FailedToProcess e)]).
Proof.
  intros N E. unfold handleReceivedMessage. run_action.
  destruct (decide _) as [Y|_]; [contradiction|].
  rewrite E. reflexivity.
Qed.

Lemma handleReceivedMessage_response (f : PubSubMessage.t)
  (self : PubSubManager.t) (r : ResponseMessage.t) :
  PubSubMessage.source f <> PubSubManager.daemonType self ->
  decodeMessage f = returns (AnyResponse r) ->
  handleReceivedMessage (Some f) self
  = (returns tt,
     PubSubManager.set_pendingResponses
       (delete (ResponseMessage.correlationId r)
          (PubSubManager.pendingResponses self)) self,
     log LogLevel.debug
       (ReceivedMessage MessageType.response (ResponseMessage.source r))
     :: match PubSubManager.pendingResponses self
              !! ResponseMessage.correlationId r with
        | Some (resumeReturning c) => [continuation_resume c (returns r)]
        | None =>
            match PubSubManager.delegate self with
            | Some d => [didReceiveMessage d (AnyResponse r)]
            | None => []
            end
        end).
Proof.
  intros N E. unfold handleReceivedMessage. run_action.
  destruct (decide _) as [Y|_]; [contradiction|].
  rewrite E. simpl.
  unfold removeValue, forwardToDelegate, call_handler. run_action.
  destruct (PubSubManager.pendingResponses self !! _) as [[c]|]; simpl.
  - reflexivity.
  - destruct (PubSubManager.delegate self); reflexivity.
Qed.

Lemma handleReceivedMessage_not_response (f : PubSubMessage.t)
  (self : PubSubManager.t) (m : AnyMessage) :
  PubSubMessage.source f <> PubSubManager.daemonType self ->
  decodeMessage f = returns m ->
  as_ResponseMessage m = None ->
  handleReceivedMessage (Some f) self
  = (returns tt, self,
     log LogLevel.debug (ReceivedMessage (any_messageType m) (any_source m))
     :: match PubSubManager.delegate self with
        | Some d => [didReceiveMessage d m]
        | None => []
        end).
Proof.
  intros N E A. unfold handleReceivedMessage. run_action.
  destruct (decide _) as [Y|_]; [contradiction|].
  rewrite E. simpl. rewrite A. unfold forwardToDelegate. run_action.
  destruct (PubSubManager.delegate self); reflexivity.
Qed.

Lemma handleReceivedMessage_undecodable (self : PubSubManager.t) :
  handleReceivedMessage None self
  = (returns tt, self, [log LogLevel.warning FailedToDecodePayload]).
Proof. reflexivity. Qed.

(** Past the self-echo check every path logs. *)
Lemma handleReceivedMessage_past_check (f : PubSubMessage.t)
  (self : PubSubManager.t) :
  PubSubMessage.source f <> PubSubManager.daemonType self ->
  match decodeMessage f with
  | returns m =>
      exists self' rest,
        handleReceivedMessage (Some f) self
        = (returns tt, self',
           log LogLevel.debug
             (ReceivedMessage (any_messageType m) (any_source m)) :: rest)
  | throws e =>
      handleReceivedMessage (Some f) self
      = (returns tt, self, [log LogLevel.error (FailedToProcess e)])
  end.
Proof.
  intros N. destruct (decodeMessage f) as [m|e] eqn:E.
  - destruct (as_ResponseMessage m) as [r|] eqn:A.
    + destruct m; try discriminate. injection A as ->.
      rewrite (handleReceivedMessage_response _ _ _ N E). eauto.
    + rewrite (handleReceivedMessage_not_response _ _ _ N E A). eauto.
  - by apply handleReceivedMessage_decode_throws.
Qed.

(** ** Self-echo suppression *)

(** [C2], as stated, fails for a dispatcher whose own role is broadcast:
    a well-formed heartbeat frame from a broadcast source is dropped by
    the check there (no event at all), while the user role gets it
    delivered. *)
Lemma C2_broadcast_role_drops_broadcast_frame :
  PubSubMessage.source sampleBroadcastFrame = DaemonType.broadcast
  /\ handleReceivedMessage (Some sampleBroadcastFrame)
       (sampleManager DaemonType.broadcast (Some 1) ∅)
     = (returns tt, sampleManager DaemonType.broadcast (Some 1) ∅, [])
  /\ handleReceivedMessage (Some sampleBroadcastFrame)
       (sampleManager DaemonType.user (Some 1) ∅)
     = (returns tt, sampleManager DaemonType.user (Some 1) ∅,
        [log LogLevel.debug
           (ReceivedMessage MessageType.heartbeat DaemonType.broadcast);
         didReceiveMessage 1 (AnyHeartbeat sampleBroadcastHeartbeat)])
  /\ ~ (forall (self : PubSubManager.t) (f : PubSubMessage.t),
          PubSubMessage.source f = DaemonType.broadcast ->
          handleReceivedMessage (Some f) self <> (returns tt, self, [])).
Proof.
  assert (E : handleReceivedMessage (Some sampleBroadcastFrame)
                (sampleManager DaemonType.broadcast (Some 1) ∅)
              = (returns tt, sampleManager DaemonType.broadcast (Some 1) ∅, []))
    by (apply handleReceivedMessage_self_echo; reflexivity).
  split; [reflexivity|]. split; [exact E|]. split.
  - rewrite (handleReceivedMessage_not_response _ _
               (AnyHeartbeat sampleBroadcastHeartbeat)); try done.
  - intros H. exact (H _ sampleBroadcastFrame eq_refl E).
Qed.

(** [C2], amended: a frame whose source is the dispatcher's own role is
    dropped without any effect, so the delegate is not invoked; a frame
    whose source is broadcast passes the check whenever the dispatcher's
    own role is not broadcast, and is then logged as received or as
    failing to decode. *)
Theorem C2_self_echo_suppression (self : PubSubManager.t)
  (f : PubSubMessage.t) :
  (PubSubMessage.source f = PubSubManager.daemonType self ->
     handleReceivedMessage (Some f) self = (returns tt, self, []))
  /\ (PubSubMessage.source f = DaemonType.broadcast ->
      PubSubManager.daemonType self <> DaemonType.broadcast ->
      match decodeMessage f with
      | returns m =>
          exists self' rest,
            handleReceivedMessage (Some f) self
            = (returns tt, self',
               log LogLevel.debug
                 (ReceivedMessage (any_messageType m) (any_source m)) :: rest)
      | throws e =>
          handleReceivedMessage (Some f) self
          = (returns tt, self, [log LogLevel.error (FailedToProcess e)])
      end).
Proof.
  split.
  - apply handleReceivedMessage_self_echo.
  - intros Hb Hrole. apply handleReceivedMessage_past_check. congruence.
Qed.

Lemma C2_self_echo_suppression_witness :
  handleReceivedMessage (Some sampleCommandFrame)
    (sampleManager DaemonType.user (Some 1) ∅)
  = (returns tt, sampleManager DaemonType.user (Some 1) ∅, [])
  /\ exists self' rest,
       handleReceivedMessage (Some sampleBroadcastFrame)
         (sampleManager DaemonType.system (Some 1) ∅)
       = (returns tt, self',
          log LogLevel.debug
            (ReceivedMessage MessageType.heartbeat DaemonType.broadcast)
          :: rest).
Proof.
  split.
  - exact (proj1 (C2_self_echo_suppression
                    (sampleManager DaemonType.user (Some 1) ∅)
                    sampleCommandFrame) eq_refl).
  - assert (N : DaemonType.system <> DaemonType.broadcast) by discriminate.
    exact (proj2 (C2_self_echo_suppression
                    (sampleManager DaemonType.system (Some 1) ∅)
                    sampleBroadcastFrame) eq_refl N).
Defined.

(** ** Responses and the delegate *)



(** ** Kinds without a payload type *)

Lemma decodeMessage_unsupported (f : PubSubMessage.t) :
  PubSubMessage.messageType f
    ∈ [MessageType.userActivity; MessageType.configuration;
       MessageType.error; MessageType.shutdown] ->
  decodeMessage f
  = throws (PubSub (unsupportedMessageType (PubSubMessage.messageType f))).
Proof.
  intros K. unfold decodeMessage.
  destruct (PubSubMessage.messageType f); try reflexivity; exfalso;
    repeat (apply elem_of_cons in K as [K|K]; [discriminate K|]);
    by apply not_elem_of_nil in K.
Qed.

(** [C10], as stated, fails for a frame that the dispatcher's own role
    sent: the self-echo check returns before the decode step, so nothing
    is raised and nothing is logged. *)
Lemma C10_self_sourced_frame_not_logged :
  PubSubMessage.messageType (sampleShutdownFrame DaemonType.user)
    = MessageType.shutdown
  /\ handleReceivedMessage (Some (sampleShutdownFrame DaemonType.user))
       (sampleManager DaemonType.user (Some 1) ∅)
     = (returns tt, sampleManager DaemonType.user (Some 1) ∅, [])
  /\ ~ (forall (self : PubSubManager.t) (f : PubSubMessage.t),
          PubSubMessage.messageType f = MessageType.shutdown ->
          log LogLevel.error
            (FailedToProcess (PubSub (unsupportedMessageType MessageType.shutdown)))
            ∈ events_of (handleReceivedMessage (Some f) self)).
Proof.
  assert (E : handleReceivedMessage (Some (sampleShutdownFrame DaemonType.user))
                (sampleManager DaemonType.user (Some 1) ∅)
              = (returns tt, sampleManager DaemonType.user (Some 1) ∅, []))
    by (apply handleReceivedMessage_self_echo; reflexivity).
  split; [reflexivity|]. split; [exact E|].
  intros H.
  specialize (H (sampleManager DaemonType.user (Some 1) ∅)
                (sampleShutdownFrame DaemonType.user) eq_refl).
  rewrite E in H. unfold events_of in H. simpl in H.
  by apply not_elem_of_nil in H.
Qed.

(** [C10], amended: for a frame whose declared kind is user-activity,
    configuration, error or shutdown, [decodeMessage] throws
    [unsupportedMessageType]; when the frame's source differs from the
    dispatcher's own role the error is caught and logged and nothing else
    happens; when the source is the own role the frame is dropped before
    the decode step.  In both cases the delegate and the pending handlers
    are left alone and the manager's state is unchanged. *)
Theorem C10_unsupported_kinds_dropped (self : PubSubManager.t)
  (f : PubSubMessage.t) :
  PubSubMessage.messageType f
    ∈ [MessageType.userActivity; MessageType.configuration;
       MessageType.error; MessageType.shutdown] ->
  let unsupported :=
    PubSub (unsupportedMessageType (PubSubMessage.messageType f)) in
  decodeMessage f = throws unsupported
  /\ (PubSubMessage.source f <> PubSubManager.daemonType self ->
      handleReceivedMessage (Some f) self
      = (returns tt, self, [log LogLevel.error (FailedToProcess unsupported)]))
  /\ (PubSubMessage.source f = PubSubManager.daemonType self ->
      handleReceivedMessage (Some f) self = (returns tt, self, []))
  /\ result_of (handleReceivedMessage (Some f) self) = returns tt
  /\ state_of (handleReceivedMessage (Some f) self) = self
  /\ forallb (fun e => negb (invokes_delegate e || invokes_continuation e))
       (events_of (handleReceivedMessage (Some f) self)) = true.
Proof.
  intros K unsupported. subst unsupported.
  pose proof (decodeMessage_unsupported f K) as E.
  split; [exact E|]. split; [|split].
  - intros N. by apply handleReceivedMessage_decode_throws.
  - apply handleReceivedMessage_self_echo.
  - destruct (decide (PubSubMessage.source f = PubSubManager.daemonType self))
      as [Y|N].
    + by rewrite (handleReceivedMessage_self_echo _ _ Y).
    + by rewrite (handleReceivedMessage_decode_throws _ _ _ N E).
Qed.

Lemma C10_unsupported_kinds_dropped_witness :
  handleReceivedMessage (Some (sampleShutdownFrame DaemonType.system))
    (sampleManager DaemonType.user (Some 1) ∅)
  = (returns tt, sampleManager DaemonType.user (Some 1) ∅,
     [log LogLevel.error
        (FailedToProcess (PubSub (unsupportedMessageType MessageType.shutdown)))]).
Proof.
  assert (K : PubSubMessage.messageType (sampleShutdownFrame DaemonType.system)
              ∈ [MessageType.userActivity; MessageType.configuration;
                 MessageType.error; MessageType.shutdown])
    by (apply (bool_decide_unpack _); vm_compute; reflexivity).
  assert (N : PubSubMessage.source (sampleShutdownFrame DaemonType.system)
              <> PubSubManager.daemonType
                   (sampleManager DaemonType.user (Some 1) ∅))
    by discriminate.
  exact (proj1 (proj2 (C10_unsupported_kinds_dropped
                         (sampleManager DaemonType.user (Some 1) ∅)
                         (sampleShutdownFrame DaemonType.system) K)) N).
Defined.

(** ** Frame fields and the embedded message *)

Lemma decodeMessage_withAddress (f : PubSubMessage.t) (src : DaemonType.t)
  (tgt : option DaemonType.t) :
  decodeMessage (PubSubMessage_withAddress f src tgt) = decodeMessage f.
Proof. reflexivity. Qed.

Lemma decodeMessage_kind (f : PubSubMessage.t) (m : AnyMessage) :
  decodeMessage f = returns m ->
  any_messageType m = PubSubMessage.messageType f.
Proof.
  unfold decodeMessage.
  destruct (PubSubMessage.messageType f); try discriminate.
  - destruct (PubSubMessage.decode HeartbeatMessage.t f); simpl;
      [intros [= <-]; reflexivity | discriminate].
  - destruct (PubSubMessage.decode SystemStatusMessage.t f); simpl;
      [intros [= <-]; reflexivity | discriminate].
  - destruct (PubSubMessage.decode CommandMessage.t f); simpl;
      [intros [= <-]; reflexivity | discriminate].
  - destruct (PubSubMessage.decode ResponseMessage.t f); simpl;
      [intros [= <-]; reflexivity | discriminate].
Qed.

(** [C6], as stated, fails: a frame whose source and target differ from
    those of the message in its payload is decoded and delivered, and so
    is a frame whose payload names another kind than the frame. *)
Lemma C6_disagreeing_frame_accepted :
  decodeMessage sampleReaddressedFrame = returns (AnyHeartbeat sampleHeartbeat)
  /\ PubSubMessage.source sampleReaddressedFrame = DaemonType.user
  /\ HeartbeatMessage.source sampleHeartbeat = DaemonType.system
  /\ PubSubMessage.target sampleReaddressedFrame = Some DaemonType.broadcast
  /\ HeartbeatMessage.target sampleHeartbeat = None
  /\ handleReceivedMessage (Some sampleReaddressedFrame)
       (sampleManager DaemonType.system (Some 1) ∅)
     = (returns tt, sampleManager DaemonType.system (Some 1) ∅,
        [log LogLevel.debug
           (ReceivedMessage MessageType.heartbeat DaemonType.system);
         didReceiveMessage 1 (AnyHeartbeat sampleHeartbeat)])
  /\ container_lookup "messageType"
       match PubSubMessage.payload sampleMislabelledFrame with
       | EKeyed fields => fields
       | _ => []
       end
     = Some (EString (MessageType.rawValue MessageType.command))
  /\ decodeMessage sampleMislabelledFrame = returns (AnyHeartbeat sampleHeartbeat)
  /\ ~ (forall (f : PubSubMessage.t) (m : AnyMessage),
          decodeMessage f = returns m ->
          PubSubMessage.source f = any_source m
          /\ PubSubMessage.target f = any_target m).
Proof.
  assert (E : decodeMessage sampleReaddressedFrame
              = returns (AnyHeartbeat sampleHeartbeat))
    by (vm_compute; reflexivity).
  repeat (split; [first [exact E | reflexivity]|]).
  intros H. destruct (H _ _ E) as [Hs _]. discriminate Hs.
Qed.

(** [C6], amended: a frame built by [PubSubMessage.init] carries the
    kind, source and target of the message it wraps, and its payload
    decodes to that message.  The decoder compares nothing: what
    [decodeMessage] returns does not depend on the frame's source and
    target, and the kind of the message it returns is the frame's
    declared kind. *)
Theorem C6_frame_fields (T : Type) (B : BaseMessage.t T) (message : T)
  (p : MessagePriority.t) (frame : PubSubMessage.t) :
  PubSubMessage.init message p = returns frame ->
  (PubSubMessage.messageType frame = BaseMessage.messageType message
   /\ PubSubMessage.source frame = BaseMessage.source message
   /\ PubSubMessage.target frame = BaseMessage.target message
   /\ BaseMessage.encode message = returns (PubSubMessage.payload frame))
  /\ (forall (f : PubSubMessage.t) src tgt,
        decodeMessage (PubSubMessage_withAddress f src tgt) = decodeMessage f)
  /\ (forall (f : PubSubMessage.t) (m : AnyMessage),
        decodeMessage f = returns m ->
        any_messageType m = PubSubMessage.messageType f).
Proof.
  intros Hinit.
  apply PubSubMessage_init_fields in Hinit as (He & Hk & Hs & Ht & _).
  split; [auto|]. split.
  - apply decodeMessage_withAddress.
  - apply decodeMessage_kind.
Qed.

Lemma C6_frame_fields_witness :
  PubSubMessage.init sampleCommand MessagePriority.normal
    = returns sampleCommandFrame
  /\ PubSubMessage.messageType sampleCommandFrame = MessageType.command
  /\ PubSubMessage.source sampleCommandFrame = DaemonType.user
  /\ PubSubMessage.target sampleCommandFrame = Some DaemonType.system.
Proof.
  assert (E : PubSubMessage.init sampleCommand MessagePriority.normal
              = returns sampleCommandFrame) by (vm_compute; reflexivity).
  destruct (C6_frame_fields _ _ sampleCommand MessagePriority.normal
              sampleCommandFrame E) as ((Hk & Hs & Ht & _) & _).
  exact (conj E (conj Hk (conj Hs Ht))).
Defined.

(** ** Registering a pending response *)

Lemma publishAndWaitForResponse_run (command : CommandMessage.t)
  (channel : option string) (delay : TimeInterval) (c : Continuation)
  (self : PubSubManager.t) :
  publishAndWaitForResponse command channel delay c self
  = (returns tt,
     PubSubManager.set_pendingResponses
       (<[CommandMessage.id command := resumeReturning c]>
          (PubSubManager.pendingResponses self)) self,
     [asyncAfter delay (CommandMessage.id command) c;
      task_publish command channel c]).
Proof. reflexivity. Qed.

(** [C4], as stated, fails: a second call with a command whose id is
    still pending returns normally, resumes no continuation with an
    error, and leaves the second handler in place of the first. *)
Lemma C4_second_registration_replaces_first :
  let self1 :=
    state_of (publishAndWaitForResponse sampleCommand None 30%float 1
                (sampleManager DaemonType.user None ∅)) in
  let second := publishAndWaitForResponse sampleCommand None 30%float 2 self1 in
  PubSubManager.pendingResponses self1 !! CommandMessage.id sampleCommand
    = Some (resumeReturning 1)
  /\ result_of second = returns tt
  /\ events_of second
     = [asyncAfter 30%float (CommandMessage.id sampleCommand) 2;
        task_publish sampleCommand None 2]
  /\ PubSubManager.pendingResponses (state_of second)
       !! CommandMessage.id sampleCommand
     = Some (resumeReturning 2)
  /\ ~ (forall (self : PubSubManager.t) (command : CommandMessage.t)
          (channel : option string) (delay : TimeInterval)
          (c : Continuation),
          is_Some (PubSubManager.pendingResponses self
                     !! CommandMessage.id command) ->
          PubSubManager.pendingResponses
            (state_of (publishAndWaitForResponse command channel delay c self))
          = PubSubManager.pendingResponses self).
Proof.
  intros self1 second. subst second self1.
  rewrite !publishAndWaitForResponse_run. unfold state_of, events_of, result_of.
  simpl. rewrite !lookup_insert_eq.
  repeat (split; [reflexivity|]).
  intros H.
  specialize (H (PubSubManager.set_pendingResponses
                   (<[19%N := resumeReturning 1]> ∅)
                   (sampleManager DaemonType.user None ∅))
                sampleCommand None 30%float 2).
  unfold state_of in H. simpl in H.
  assert (L : is_Some (<[19%N := resumeReturning 1]> (∅ : gmap UUID ResponseHandler)
                         !! 19%N))
    by (rewrite lookup_insert_eq; eauto).
  specialize (H L).
  apply (f_equal (fun m => m !! 19%N)) in H.
  rewrite !lookup_insert_eq in H. discriminate H.
Qed.

(** [C4], amended: registering a handler for a command id that is
    already pending raises no error (no duplicate-correlation error
    exists in [PubSubError]); the call returns, arms its timeout, spawns
    its publish task, and the new handler replaces the pending one while
    the other entries stay as they were. *)
Theorem C4_registration_replaces_pending (self : PubSubManager.t)
  (command : CommandMessage.t) (channel : option string)
  (delay : TimeInterval) (c : Continuation) (h : ResponseHandler) :
  PubSubManager.pendingResponses self !! CommandMessage.id command = Some h ->
  let run := publishAndWaitForResponse command channel delay c self in
  result_of run = returns tt
  /\ events_of run
     = [asyncAfter delay (CommandMessage.id command) c;
        task_publish command channel c]
  /\ PubSubManager.pendingResponses (state_of run) !! CommandMessage.id command
     = Some (resumeReturning c)
  /\ forall k, k <> CommandMessage.id command ->
       PubSubManager.pendingResponses (state_of run) !! k
       = PubSubManager.pendingResponses self !! k.
Proof.
  intros _ run. subst run. rewrite publishAndWaitForResponse_run.
  unfold state_of, events_of, result_of. simpl.
  repeat (split; [first [reflexivity | apply lookup_insert_eq]|]).
  intros k N. by rewrite lookup_insert_ne.
Qed.

Lemma C4_registration_replaces_pending_witness :
  let self1 :=
    PubSubManager.set_pendingResponses (<[19%N := resumeReturning 1]> ∅)
      (sampleManager DaemonType.user None ∅) in
  PubSubManager.pendingResponses
    (state_of (publishAndWaitForResponse sampleCommand None 30%float 2 self1))
    !! 19%N
  = Some (resumeReturning 2).
Proof.
  intros self1.
  assert (P : PubSubManager.pendingResponses self1
                !! CommandMessage.id sampleCommand
              = Some (resumeReturning 1))
    by apply lookup_insert_eq.
  exact (proj1 (proj2 (proj2
           (C4_registration_replaces_pending self1 sampleCommand None
              30%float 2 (resumeReturning 1) P)))).
Defined.

(** ** Connecting *)

Lemma kc_ret {A} (a : A) (Q : A -> Prop) : Q a -> keeps_configured (mret a) Q.
Proof. intros q self C. split; [exact C | exact q]. Qed.

Lemma kc_this : keeps_configured this configured.
Proof. intros self C. split; exact C. Qed.

Lemma kc_emit (e : Event) : keeps_configured (emit e) (fun _ => True).
Proof. intros self C. split; [exact C | exact I]. Qed.

Lemma kc_modify (f : PubSubManager.t -> PubSubManager.t) :
  (forall self, PubSubManager.pubnub (f self) = PubSubManager.pubnub self) ->
  keeps_configured (modify f) (fun _ => True).
Proof.
  intros F self C. split; [|exact I].
  unfold configured, state_of, modify; simpl. rewrite F. exact C.
Qed.

Lemma kc_throw {A} (e : SwiftError) (Q : A -> Prop) :
  e <> PubSub notConfigured -> keeps_configured (throw e) Q.
Proof. intros N self C. split; [exact C | exact N]. Qed.

Lemma kc_lift_try {A} (x : try A) :
  (forall e, x = throws e -> e <> PubSub notConfigured) ->
  keeps_configured (lift_try x) (fun _ => True).
Proof.
  intros N self C. split; [exact C|].
  unfold result_of, lift_try; simpl. destruct x; [exact I | by apply N].
Qed.

Lemma kc_bind {A B} (x : Action A) (k : A -> Action B)
  (Q : A -> Prop) (R : B -> Prop) :
  keeps_configured x Q ->
  (forall a, Q a -> keeps_configured (k a) R) ->
  keeps_configured (x ≫= k) R.
Proof.
  intros Hx Hk self C.
  unfold mbind, Action_MBind, Action_bind.
  destruct (Hx self C) as [C1 R1].
  destruct (x self) as [[r self1] ev1]. unfold state_of, result_of in *.
  simpl in *. destruct r as [a|e]; simpl.
  - destruct (Hk a R1 self1 C1) as [C2 R2].
    destruct (k a self1) as [[r2 self2] ev2]. simpl in *. by split.
  - by split.
Qed.

Lemma kc_catch {A} (body : Action A) (handler : SwiftError -> Action A)
  (Q : A -> Prop) :
  keeps_configured body Q ->
  (forall e, e <> PubSub notConfigured -> keeps_configured (handler e) Q) ->
  keeps_configured (do_catch body handler) Q.
Proof.
  intros Hb Hh self C. unfold do_catch.
  destruct (Hb self C) as [C1 R1].
  destruct (body self) as [[r self1] ev1]. unfold state_of, result_of in *.
  simpl in *. destruct r as [a|e]; simpl.
  - by split.
  - destruct (Hh e R1 self1 C1) as [C2 R2].
    destruct (handler e self1) as [[r2 self2] ev2]. simpl in *. by split.
Qed.

Lemma kc_updateConnectionStatus (status : ConnectionStatus) :
  keeps_configured (updateConnectionStatus status) (fun _ => True).
Proof. apply kc_emit. Qed.

Lemma kc_connectionStatusTask (status : ConnectionStatus) :
  keeps_configured (connectionStatusTask status) (fun _ => True).
Proof.
  unfold connectionStatusTask.
  eapply kc_bind; [by apply kc_modify|]. intros _ _.
  eapply kc_bind; [apply kc_this|]. intros self _.
  destruct (PubSubManager.delegate self); [apply kc_emit | by apply kc_ret].
Qed.

Lemma kc_runSpawned (spawned : list ConnectionStatus) :
  keeps_configured (runSpawned spawned) (fun _ => True).
Proof.
  induction spawned as [|status rest IH]; simpl; [by apply kc_ret|].
  eapply kc_bind; [apply kc_connectionStatusTask|]. intros _ _. exact IH.
Qed.

Lemma kc_suspending {A} (spawned : list ConnectionStatus) (call : Action A)
  (Q : A -> Prop) :
  keeps_configured call Q -> keeps_configured (suspending spawned call) Q.
Proof.
  intros H self C. unfold suspending.
  destruct (H self C) as [C1 R1].
  destruct (call self) as [[r self1] ev1]. unfold state_of, result_of in *.
  simpl in *.
  destruct (splitAtPublish ev1) as [[before after]|]; [|by split].
  destruct (kc_runSpawned spawned self1 C1) as [C2 _].
  destruct (runSpawned spawned self1) as [[r2 self2] ev2]. simpl in *.
  by split.
Qed.

Lemma HeartbeatMessage_encode_throws (m : HeartbeatMessage.t) (e : SwiftError) :
  HeartbeatMessage.encode m = throws e -> exists x, e = Encoding x.
Proof.
  unfold HeartbeatMessage.encode, encodeDoubleIfPresent, encodeDouble.
  destruct (is_finite (HeartbeatMessage.timestamp m)); simpl;
    [|intros [= <-]; eauto].
  destruct (HeartbeatMessage.systemLoad m) as [x|]; simpl;
    [destruct (is_finite x); simpl; [|intros [= <-]; eauto]|];
    (destruct (HeartbeatMessage.memoryUsage m) as [y|]; simpl;
     [destruct (is_finite y); simpl; [|intros [= <-]; eauto]|]);
    (destruct (is_finite (HeartbeatMessage.uptime m)); simpl;
     [discriminate|intros [= <-]; eauto]).
Qed.

Lemma kc_publish {T} {B : BaseMessage.t T}
  (encode_ok : forall (m : T) e,
      BaseMessage.encode m = throws e -> exists x, e = Encoding x)
  (env : Environment) (message : T) (channel : option string) :
  keeps_configured (publish env message channel) (fun _ => True).
Proof.
  unfold publish.
  eapply kc_bind; [apply kc_this|]. intros self [pn P]. rewrite P.
  eapply kc_bind.
  { apply kc_lift_try. intros e. unfold PubSubMessage.init.
    destruct (BaseMessage.encode message) as [d|e'] eqn:E; simpl;
      [discriminate|].
    intros [= <-]. destruct (encode_ok _ _ E) as [x ->]. discriminate. }
  intros pubSubMessage _.
  eapply kc_bind; [apply kc_emit|]. intros _ _.
  eapply kc_bind; [apply kc_emit|]. intros _ _.
  destruct (publishResult env _ _).
  - eapply kc_bind; [apply kc_emit|]. intros _ _. by apply kc_throw.
  - apply kc_emit.
Qed.

Lemma kc_sendHeartbeat (env : Environment) :
  keeps_configured (sendHeartbeat env) (fun _ => True).
Proof.
  unfold sendHeartbeat.
  eapply kc_bind; [apply kc_this|]. intros self _.
  apply (kc_publish (B := HeartbeatMessage_BaseMessage)
           HeartbeatMessage_encode_throws).
Qed.

Lemma kc_startHeartbeat : keeps_configured startHeartbeat (fun _ => True).
Proof.
  unfold startHeartbeat.
  eapply kc_bind; [apply kc_this|]. intros self _.
  eapply kc_bind; [apply kc_emit|]. intros _ _.
  by apply kc_modify.
Qed.

Lemma kc_connect (env : Environment) :
  keeps_configured (connect env) (fun _ => True).
Proof.
  unfold connect.
  eapply kc_bind; [apply kc_this|]. intros self [pn P]. rewrite P.
  eapply kc_bind; [apply kc_updateConnectionStatus|]. intros _ _.
  eapply kc_bind; [apply kc_emit|]. intros _ _.
  apply kc_catch.
  - eapply kc_bind; [apply kc_this|]. intros self1 _.
    eapply kc_bind; [apply kc_emit|]. intros _ _.
    eapply kc_bind; [by apply kc_modify|]. intros _ _.
    eapply kc_bind; [apply kc_updateConnectionStatus|]. intros _ _.
    eapply kc_bind; [apply kc_emit|]. intros _ _.
    eapply kc_bind; [apply kc_startHeartbeat|]. intros _ _.
    apply kc_suspending, kc_sendHeartbeat.
  - intros e N.
    eapply kc_bind; [apply kc_updateConnectionStatus|]. intros _ _.
    eapply kc_bind; [apply kc_emit|]. intros _ _.
    by apply kc_throw.
Qed.

Lemma connect_notConfigured_iff (env : Environment) (self : PubSubManager.t) :
  result_of (connect env self) = throws (PubSub notConfigured)
  <-> PubSubManager.pubnub self = None.
Proof.
  split.
  - intros R. destruct (PubSubManager.pubnub self) as [pn|] eqn:P; [|done].
    exfalso.
    destruct (kc_connect env self) as [_ K]; [unfold configured; eauto|].
    rewrite R in K. by apply K.
  - intros P. unfold connect. run_action. by rewrite P.
Qed.

Lemma setupPubNub_configured (self : PubSubManager.t)
  (r : try unit * PubSubManager.t * list Event) :
  setupPubNub self = Some r ->
  result_of r = returns tt /\ configured (state_of r)
  /\ PubSubManager.delegate (state_of r) = PubSubManager.delegate self.
Proof.
  unfold setupPubNub. destruct (_ && _); [|discriminate].
  intros [= <-]. unfold configured, state_of, result_of. simpl. eauto.
Qed.

(** [C5] [connect] throws [notConfigured] exactly when the manager has
    no transport handle; a manager that [init] has constructed (whatever
    delegate is then assigned to it) has the handle, so its [connect]
    never throws [notConfigured]. *)
Theorem C5_connect_notConfigured :
  (forall (env : Environment) (self : PubSubManager.t),
      result_of (connect env self) = throws (PubSub notConfigured)
      <-> PubSubManager.pubnub self = None)
  /\ (forall configuration daemonType r delegate env,
        PubSubManager_init configuration daemonType = Some r ->
        is_Some (PubSubManager.pubnub (state_of r))
        /\ result_of (connect env (PubSubManager.set_delegate delegate (state_of r)))
           <> throws (PubSub notConfigured)).
Proof.
  split; [apply connect_notConfigured_iff|].
  intros configuration daemonType r delegate env Hinit.
  apply setupPubNub_configured in Hinit as (_ & C & _).
  split; [exact C|].
  rewrite connect_notConfigured_iff. simpl.
  destruct C as [pn ->]. discriminate.
Qed.

Lemma C5_connect_notConfigured_witness :
  PubSubManager_init sampleConfiguration DaemonType.system
  = Some (returns tt, sampleManager DaemonType.system None ∅,
          [pubnub_add_listener;
           log LogLevel.info (PubNubConfigured DaemonType.system)])
  /\ result_of (connect (sampleEnvironment None)
                  (PubSubManager.set_delegate (Some 1)
                     (sampleManager DaemonType.system None ∅)))
     <> throws (PubSub notConfigured).
Proof.
  assert (E : PubSubManager_init sampleConfiguration DaemonType.system
              = Some (returns tt, sampleManager DaemonType.system None ∅,
                      [pubnub_add_listener;
                       log LogLevel.info (PubNubConfigured DaemonType.system)]))
    by (vm_compute; reflexivity).
  exact (conj E (proj2 (proj2 C5_connect_notConfigured
                          sampleConfiguration DaemonType.system _ (Some 1)
                          (sampleEnvironment None) E))).
Defined.

(** ** Pending responses: resolution and timeout *)

Lemma resumptions_app (c : Continuation) (l1 l2 : list Event) :
  resumptions c (l1 ++ l2) = resumptions c l1 ++ resumptions c l2.
Proof. apply omap_app. Qed.

Lemma resumptions_quiet (c : Continuation) (events : list Event) :
  quiet events -> resumptions c events = [].
Proof.
  unfold quiet. induction events as [|e l IH]; simpl; [done|].
  intros H. apply andb_true_iff in H as [He Hl].
  destruct e; simpl in *; try discriminate; by apply IH.
Qed.

Lemma timeoutElapsed_run (k : UUID) (c : Continuation)
  (self : PubSubManager.t) :
  timeoutElapsed k c self
  = (returns tt,
     PubSubManager.set_pendingResponses
       (delete k (PubSubManager.pendingResponses self)) self,
     match PubSubManager.pendingResponses self !! k with
     | Some _ => [continuation_resume c (throws (PubSub timeout))]
     | None => []
     end).
Proof.
  unfold timeoutElapsed, removeValue. run_action.
  destruct (PubSubManager.pendingResponses self !! k); reflexivity.
Qed.

Lemma publish_run {T} {B : BaseMessage.t T} (env : Environment) (message : T)
  (channel : option string) (self : PubSubManager.t) :
  state_of (publish env message channel self) = self
  /\ quiet (events_of (publish env message channel self)).
Proof.
  unfold publish. run_action.
  destruct (PubSubManager.pubnub self); simpl; [|split; reflexivity].
  destruct (PubSubMessage.init message MessagePriority.normal); simpl;
    [|split; reflexivity].
  destruct (publishResult env _ _); simpl; split; reflexivity.
Qed.



















(** A thread run on its own is the closure it was cut from: the timeout
    closure, [handleReceivedMessage], the publishing task and the closure
    of [publishAndWaitForResponse], with the same manager and the same
    events at the end. *)
Lemma run_thread_is_closure :
  (forall k c self,
      run_thread (timeout_armed k c) self
      = (returns finished, state_of (timeoutElapsed k c self),
         events_of (timeoutElapsed k c self)))
  /\ (forall message self,
        run_thread (receive_queued message) self
        = (returns finished, state_of (handleReceivedMessage message self),
           events_of (handleReceivedMessage message self)))
  /\ (forall env command channel c self,
        run_thread (publish_spawned env command channel c) self
        = (returns finished,
           state_of (publishTask env command channel c self),
           events_of (publishTask env command channel c self)))
  /\ (forall env command channel delay c self,
        thread_step (call_entered env command channel delay c) self
        = (returns (finished,
                    [timeout_armed (CommandMessage.id command) c;
                     publish_spawned env command channel c]),
           state_of (publishAndWaitForResponse command channel delay c self),
           events_of (publishAndWaitForResponse command channel delay c self))).
Proof.
  split; [|split; [|split]].
  - intros k c self. rewrite timeoutElapsed_run.
    unfold run_thread. simpl. run_action.
    destruct (PubSubManager.pendingResponses self !! k); reflexivity.
  - intros message self. unfold run_thread.
    destruct message as [f|]; [|reflexivity].
    destruct (decide (PubSubMessage.source f = PubSubManager.daemonType self))
      as [Y|N].
    { rewrite (handleReceivedMessage_self_echo _ _ Y). simpl. run_action.
      destruct (decide _) as [_|N]; [reflexivity | contradiction]. }
    destruct (decodeMessage f) as [m|e] eqn:E.
    2:{ rewrite (handleReceivedMessage_decode_throws _ _ _ N E).
        simpl. run_action.
        destruct (decide _) as [Y|_]; [contradiction|]. by rewrite E. }
    destruct (as_ResponseMessage m) as [r|] eqn:A.
    2:{ rewrite (handleReceivedMessage_not_response _ _ _ N E A).
        simpl. run_action.
        destruct (decide _) as [Y|_]; [contradiction|]. rewrite E. simpl.
        rewrite A. unfold forwardToDelegate. run_action.
        destruct (PubSubManager.delegate self); reflexivity. }
    destruct m; try discriminate. injection A as ->.
    rewrite (handleReceivedMessage_response _ _ _ N E).
    simpl. run_action.
    destruct (decide _) as [Y|_]; [contradiction|]. rewrite E. simpl.
    destruct (PubSubManager.pendingResponses self
                !! ResponseMessage.correlationId r) as [[c0]|]; simpl;
      [reflexivity|].
    unfold forwardToDelegate. run_action.
    destruct (PubSubManager.delegate self); reflexivity.
  - intros env command channel c self. unfold run_thread, publishTask.
    destruct (publish_run env command channel self) as [St _].
    cbn [thread_step]. unfold do_catch, mbind, Action_MBind, Action_bind.
    destruct (publish env command channel self) as [[r self1] ev].
    unfold state_of in St; simpl in St. subst self1.
    destruct r as [[]|e]; simpl.
    + unfold state_of, events_of. simpl. by rewrite !app_nil_r.
    + unfold state_of, events_of. simpl. by rewrite !app_nil_r.
  - intros. reflexivity.
Qed.
Lemma run_schedule_cons (s : Step) (steps : list Step)
  (self self1 : PubSubManager.t) (ev1 : list Event) :
  run_step s self = (returns tt, self1, ev1) ->
  run_schedule (s :: steps) self
  = (result_of (run_schedule steps self1), state_of (run_schedule steps self1),
     ev1 ++ events_of (run_schedule steps self1)).
Proof.
  intros E. simpl. unfold mbind, Action_MBind, Action_bind. rewrite E.
  by destruct (run_schedule steps self1) as [[r s2] ev2].
Qed.






(** The publishing task of the call itself is not among the threads
    above: when it fails it resumes the continuation whether or not the
    handler is still pending.  Here the timeout has already resumed
    continuation 1 when the publish of the same call fails. *)
Example publishTask_failure_after_timeout :
  resumptions 1
    (events_of
       (run_schedule
          [step_timeout 19%N 1;
           step_publishTask (sampleEnvironment (Some (transportError 5%N)))
             sampleCommand None 1]
          sampleWaitingManager))
  = [throws (PubSub timeout); throws (Transport (transportError 5%N))].
Proof. vm_compute. reflexivity. Qed.

(* ================================================================== *)
(** * Further properties of the message catalog *)

Lemma find_rawValue {A} (rawValue : A -> string) (cases : list A)
  (s : string) (x : A) :
  List.find (fun y => String.eqb (rawValue y) s) cases = Some x ->
  s = rawValue x.
Proof.
  intros F. apply List.find_some in F as [_ E].
  symmetry. by apply String.eqb_eq.
Qed.

(** [X1] For each enumeration of the wire format, [init?(rawValue:)]
    returns a case exactly for that case's raw value: raw values are
    distinct and every other string is refused. *)
Theorem X1_rawValue_partial_inverse :
  (forall s x, MessageType.init_rawValue s = Some x <-> s = MessageType.rawValue x)
  /\ (forall s x, DaemonType.init_rawValue s = Some x <-> s = DaemonType.rawValue x)
  /\ (forall s x, MessagePriority.init_rawValue s = Some x
                  <-> s = MessagePriority.rawValue x)
  /\ (forall s x, SystemStatus.init_rawValue s = Some x
                  <-> s = SystemStatus.rawValue x).
Proof.
  repeat split.
  - apply find_rawValue.
  - intros ->. apply MessageType_rawValue_roundtrip.
  - apply find_rawValue.
  - intros ->. apply DaemonType_rawValue_roundtrip.
  - apply find_rawValue.
  - intros ->. apply MessagePriority_rawValue_roundtrip.
  - apply find_rawValue.
  - intros ->. apply SystemStatus_rawValue_roundtrip.
Qed.

(** [X2] Wrapping a message fails exactly when one of its [Double]
    values (the timestamp, and for a heartbeat the load, the memory
    usage and the uptime) is not finite; the error is then an encoding
    error, and nothing else can make [PubSubMessage.init] throw. *)
Theorem X2_init_returns_iff_finite (p : MessagePriority.t) :
  (forall m : HeartbeatMessage.t,
      (exists frame, PubSubMessage.init m p = returns frame)
      <-> is_finite (HeartbeatMessage.timestamp m)
          && from_option is_finite true (HeartbeatMessage.systemLoad m)
          && from_option is_finite true (HeartbeatMessage.memoryUsage m)
          && is_finite (HeartbeatMessage.uptime m) = true)
  /\ (forall m : SystemStatusMessage.t,
      (exists frame, PubSubMessage.init m p = returns frame)
      <-> is_finite (SystemStatusMessage.timestamp m) = true)
  /\ (forall m : CommandMessage.t,
      (exists frame, PubSubMessage.init m p = returns frame)
      <-> is_finite (CommandMessage.timestamp m) = true)
  /\ (forall m : ResponseMessage.t,
      (exists frame, PubSubMessage.init m p = returns frame)
      <-> is_finite (ResponseMessage.timestamp m) = true)
  /\ (forall (m : HeartbeatMessage.t) e,
        PubSubMessage.init m p = throws e -> exists key, e = Encoding (invalidValue key))
  /\ (forall (m : SystemStatusMessage.t) e,
        PubSubMessage.init m p = throws e -> e = Encoding (invalidValue "timestamp"))
  /\ (forall (m : CommandMessage.t) e,
        PubSubMessage.init m p = throws e -> e = Encoding (invalidValue "timestamp"))
  /\ (forall (m : ResponseMessage.t) e,
        PubSubMessage.init m p = throws e -> e = Encoding (invalidValue "timestamp")).
Proof.
  split; [|split; [|split; [|split; [|split; [|split; [|split]]]]]].
  - intros [i ts src tgt load mem up]; simpl.
    unfold PubSubMessage.init; simpl.
    unfold HeartbeatMessage.encode, encodeDoubleIfPresent, encodeDouble; simpl.
    destruct (is_finite ts); simpl; [|split; [intros [f E]|]; discriminate].
    destruct load as [load|]; simpl;
      [destruct (is_finite load); simpl;
       [|split; [intros [f E]|]; discriminate]|];
      (destruct mem as [mem|]; simpl;
       [destruct (is_finite mem); simpl;
        [|split; [intros [f E]|]; discriminate]|]);
      (destruct (is_finite up); simpl;
       [split; eauto | split; [intros [f E]|]; discriminate]).
  - intros m. unfold PubSubMessage.init; simpl.
    unfold SystemStatusMessage.encode, encodeDouble.
    destruct (is_finite _); simpl; split; eauto; try discriminate.
    intros [f E]; discriminate.
  - intros m. unfold PubSubMessage.init; simpl.
    unfold CommandMessage.encode, encodeDouble.
    destruct (is_finite _); simpl; split; eauto; try discriminate.
    intros [f E]; discriminate.
  - intros m. unfold PubSubMessage.init; simpl.
    unfold ResponseMessage.encode, encodeDouble.
    destruct (is_finite _); simpl; split; eauto; try discriminate.
    intros [f E]; discriminate.
  - intros m e. unfold PubSubMessage.init; simpl.
    destruct (HeartbeatMessage.encode m) as [d|e'] eqn:E; simpl; [discriminate|].
    intros [= <-].
    revert E. unfold HeartbeatMessage.encode, encodeDoubleIfPresent, encodeDouble.
    destruct (is_finite (HeartbeatMessage.timestamp m)); simpl;
      [|intros [= <-]; eauto].
    destruct (HeartbeatMessage.systemLoad m) as [x|]; simpl;
      [destruct (is_finite x); simpl; [|intros [= <-]; eauto]|];
      (destruct (HeartbeatMessage.memoryUsage m) as [y|]; simpl;
       [destruct (is_finite y); simpl; [|intros [= <-]; eauto]|]);
      (destruct (is_finite (HeartbeatMessage.uptime m)); simpl;
       [discriminate|intros [= <-]; eauto]).
  - intros m e. unfold PubSubMessage.init; simpl.
    unfold SystemStatusMessage.encode, encodeDouble.
    destruct (is_finite _); simpl; [discriminate|]. by intros [= <-].
  - intros m e. unfold PubSubMessage.init; simpl.
    unfold CommandMessage.encode, encodeDouble.
    destruct (is_finite _); simpl; [discriminate|]. by intros [= <-].
  - intros m e. unfold PubSubMessage.init; simpl.
    unfold ResponseMessage.encode, encodeDouble.
    destruct (is_finite _); simpl; [discriminate|]. by intros [= <-].
Qed.

Ltac encode_ok ts :=
  destruct (encodeDouble "timestamp" ts) as [?v|] eqn:?E; simpl;
    [|discriminate];
  match goal with
  | E : encodeDouble "timestamp" ts = returns _ |- _ =>
      apply encodeDouble_returns in E as ->
  end.

Lemma HeartbeatMessage_encode_shape (m : HeartbeatMessage.t) (d : Data) :
  HeartbeatMessage.encode m = returns d ->
  d = EKeyed
        ([("id", EUUID (HeartbeatMessage.id m));
          ("timestamp", ENumber (HeartbeatMessage.timestamp m));
          ("messageType", EString "heartbeat");
          ("source", encodeRaw DaemonType.rawValue (HeartbeatMessage.source m))]
         ++ encodeIfPresent (encodeRaw DaemonType.rawValue) "target"
              (HeartbeatMessage.target m)
         ++ encodeIfPresent ENumber "systemLoad" (HeartbeatMessage.systemLoad m)
         ++ encodeIfPresent ENumber "memoryUsage" (HeartbeatMessage.memoryUsage m)
         ++ [("uptime", ENumber (HeartbeatMessage.uptime m))]).
Proof.
  destruct m as [i ts src tgt load mem up].
  unfold HeartbeatMessage.encode. simpl.
  encode_ok ts.
  destruct (encodeDoubleIfPresent "systemLoad" load) as [l1|] eqn:E2;
    simpl; [|discriminate].
  apply encodeDoubleIfPresent_returns in E2 as ->.
  destruct (encodeDoubleIfPresent "memoryUsage" mem) as [l2|] eqn:E3;
    simpl; [|discriminate].
  apply encodeDoubleIfPresent_returns in E3 as ->.
  destruct (encodeDouble "uptime" up) as [w|] eqn:E4; simpl; [|discriminate].
  apply encodeDouble_returns in E4 as ->.
  by intros [= <-].
Qed.

Lemma SystemStatusMessage_encode_shape (m : SystemStatusMessage.t) (d : Data) :
  SystemStatusMessage.encode m = returns d ->
  d = EKeyed
        ([("id", EUUID (SystemStatusMessage.id m));
          ("timestamp", ENumber (SystemStatusMessage.timestamp m));
          ("messageType", EString "system_status");
          ("source", encodeRaw DaemonType.rawValue (SystemStatusMessage.source m))]
         ++ encodeIfPresent (encodeRaw DaemonType.rawValue) "target"
              (SystemStatusMessage.target m)
         ++ [("status",
              encodeRaw SystemStatus.rawValue (SystemStatusMessage.status m))]
         ++ encodeIfPresent encodeDictionary "details"
              (SystemStatusMessage.details m)).
Proof.
  destruct m as [i ts src tgt st det].
  unfold SystemStatusMessage.encode. simpl. encode_ok ts. by intros [= <-].
Qed.

Lemma CommandMessage_encode_shape (m : CommandMessage.t) (d : Data) :
  CommandMessage.encode m = returns d ->
  d = EKeyed
        ([("id", EUUID (CommandMessage.id m));
          ("timestamp", ENumber (CommandMessage.timestamp m));
          ("messageType", EString "command");
          ("source", encodeRaw DaemonType.rawValue (CommandMessage.source m))]
         ++ encodeIfPresent (encodeRaw DaemonType.rawValue) "target"
              (CommandMessage.target m)
         ++ [("command", EString (CommandMessage.command m))]
         ++ encodeIfPresent encodeDictionary "parameters"
              (CommandMessage.parameters m)
         ++ [("priority",
              encodeRaw MessagePriority.rawValue (CommandMessage.priority m));
             ("requiresResponse", EBool (CommandMessage.requiresResponse m))]).
Proof.
  destruct m as [i ts src tgt cmd par pri req].
  unfold CommandMessage.encode. simpl. encode_ok ts. by intros [= <-].
Qed.

Lemma ResponseMessage_encode_shape (m : ResponseMessage.t) (d : Data) :
  ResponseMessage.encode m = returns d ->
  d = EKeyed
        ([("id", EUUID (ResponseMessage.id m));
          ("timestamp", ENumber (ResponseMessage.timestamp m));
          ("messageType", EString "response");
          ("source", encodeRaw DaemonType.rawValue (ResponseMessage.source m))]
         ++ encodeIfPresent (encodeRaw DaemonType.rawValue) "target"
              (ResponseMessage.target m)
         ++ [("correlationId", EUUID (ResponseMessage.correlationId m));
             ("success", EBool (ResponseMessage.success m))]
         ++ encodeIfPresent EString "result" (ResponseMessage.result m)
         ++ encodeIfPresent EString "errorMessage"
              (ResponseMessage.errorMessage m)).
Proof.
  destruct m as [i ts src tgt cid ok res err].
  unfold ResponseMessage.encode. simpl. encode_ok ts. by intros [= <-].
Qed.

Ltac relabel_cases :=
  unfold decodeMessage, PubSubMessage.decode; simpl;
  unfold HeartbeatMessage.decode, SystemStatusMessage.decode,
    CommandMessage.decode, ResponseMessage.decode; simpl;
  repeat decode_encoded; try reflexivity.

(** [X3] A frame built by [PubSubMessage.init] whose declared kind is
    then changed to any other kind is refused by [decodeMessage]: with a
    missing-key error naming the first required key of the payload type
    of that kind, or as an unsupported kind. *)
Theorem X3_relabelled_frame_refused (p : MessagePriority.t)
  (kind : MessageType.t) :
  let refusal :=
    match kind with
    | MessageType.heartbeat => Decoding (keyNotFound "uptime")
    | MessageType.systemStatus => Decoding (keyNotFound "status")
    | MessageType.command => Decoding (keyNotFound "command")
    | MessageType.response => Decoding (keyNotFound "correlationId")
    | other => PubSub (unsupportedMessageType other)
    end in
  (forall (m : HeartbeatMessage.t) frame,
      PubSubMessage.init m p = returns frame ->
      kind <> MessageType.heartbeat ->
      decodeMessage (PubSubMessage_withKind frame kind) = throws refusal)
  /\ (forall (m : SystemStatusMessage.t) frame,
      PubSubMessage.init m p = returns frame ->
      kind <> MessageType.systemStatus ->
      decodeMessage (PubSubMessage_withKind frame kind) = throws refusal)
  /\ (forall (m : CommandMessage.t) frame,
      PubSubMessage.init m p = returns frame ->
      kind <> MessageType.command ->
      decodeMessage (PubSubMessage_withKind frame kind) = throws refusal)
  /\ (forall (m : ResponseMessage.t) frame,
      PubSubMessage.init m p = returns frame ->
      kind <> MessageType.response ->
      decodeMessage (PubSubMessage_withKind frame kind) = throws refusal).
Proof.
  intros refusal. subst refusal.
  split; [|split; [|split]]; intros m frame Hinit Hkind;
    apply PubSubMessage_init_fields in Hinit as (Henc & _);
    simpl in Henc.
  - apply HeartbeatMessage_encode_shape in Henc.
    destruct m as [i ts src tgt load mem up]; simpl in Henc.
    destruct frame as [k0 payload p0 s0 t0]; simpl in *. subst payload.
    destruct kind; try done;
      destruct tgt as [tgt|], load as [load|], mem as [mem|];
      relabel_cases.
  - apply SystemStatusMessage_encode_shape in Henc.
    destruct m as [i ts src tgt st det]; simpl in Henc.
    destruct frame as [k0 payload p0 s0 t0]; simpl in *. subst payload.
    destruct kind; try done;
      destruct tgt as [tgt|], det as [det|];
      relabel_cases.
  - apply CommandMessage_encode_shape in Henc.
    destruct m as [i ts src tgt cmd par pri req]; simpl in Henc.
    destruct frame as [k0 payload p0 s0 t0]; simpl in *. subst payload.
    destruct kind; try done;
      destruct tgt as [tgt|], par as [par|];
      relabel_cases.
  - apply ResponseMessage_encode_shape in Henc.
    destruct m as [i ts src tgt cid ok res err]; simpl in Henc.
    destruct frame as [k0 payload p0 s0 t0]; simpl in *. subst payload.
    destruct kind; try done;
      destruct tgt as [tgt|], res as [res|], err as [err|];
      relabel_cases.
Qed.

Lemma X3_relabelled_frame_refused_witness :
  PubSubMessage.init sampleCommand MessagePriority.normal
    = returns sampleCommandFrame
  /\ decodeMessage (PubSubMessage_withKind sampleCommandFrame MessageType.heartbeat)
     = throws (Decoding (keyNotFound "uptime")).
Proof.
  assert (E : PubSubMessage.init sampleCommand MessagePriority.normal
              = returns sampleCommandFrame) by (vm_compute; reflexivity).
  assert (N : MessageType.heartbeat <> MessageType.command) by discriminate.
  exact (conj E (proj1 (proj2 (proj2
           (X3_relabelled_frame_refused MessagePriority.normal
              MessageType.heartbeat))) sampleCommand sampleCommandFrame E N)).
Defined.

Ltac same_lookups H :=
  unfold decodeKey, decodeKeyIfPresent;
  repeat match goal with
  | |- context [container_lookup ?key ?fs] =>
      lazymatch goal with
      | H : forall key, key ∈ _ -> _ -> container_lookup key fs = _ |- _ =>
          rewrite (H key) by
            first [ (apply list_elem_of_In; simpl; tauto) | discriminate ]
      end
  end.

(** [X4] Decoding a payload reads only the coding keys of the message
    type other than [messageType]: two keyed containers that hold the
    same value under each of those keys decode to the same result,
    whatever other keys they hold and in whatever order. *)
Theorem X4_decode_reads_only_its_keys
  (fields1 fields2 : list (string * Encoded)) :
  (forall (H : forall key, key ∈ HeartbeatMessage_codingKeys ->
                           key <> "messageType" ->
                           container_lookup key fields1
                           = container_lookup key fields2),
      HeartbeatMessage.decode (EKeyed fields1)
      = HeartbeatMessage.decode (EKeyed fields2))
  /\ (forall (H : forall key, key ∈ SystemStatusMessage_codingKeys ->
                              key <> "messageType" ->
                              container_lookup key fields1
                              = container_lookup key fields2),
      SystemStatusMessage.decode (EKeyed fields1)
      = SystemStatusMessage.decode (EKeyed fields2))
  /\ (forall (H : forall key, key ∈ CommandMessage_codingKeys ->
                              key <> "messageType" ->
                              container_lookup key fields1
                              = container_lookup key fields2),
      CommandMessage.decode (EKeyed fields1)
      = CommandMessage.decode (EKeyed fields2))
  /\ (forall (H : forall key, key ∈ ResponseMessage_codingKeys ->
                              key <> "messageType" ->
                              container_lookup key fields1
                              = container_lookup key fields2),
      ResponseMessage.decode (EKeyed fields1)
      = ResponseMessage.decode (EKeyed fields2)).
Proof.
  split; [|split; [|split]]; intros H.
  - unfold HeartbeatMessage.decode; simpl. same_lookups H. reflexivity.
  - unfold SystemStatusMessage.decode; simpl. same_lookups H. reflexivity.
  - unfold CommandMessage.decode; simpl. same_lookups H. reflexivity.
  - unfold ResponseMessage.decode; simpl. same_lookups H. reflexivity.
Qed.

Lemma X4_decode_reads_only_its_keys_witness :
  HeartbeatMessage.decode (PubSubMessage.payload sampleMislabelledFrame)
  = HeartbeatMessage.decode (PubSubMessage.payload sampleHeartbeatFrame).
Proof.
  refine (proj1 (X4_decode_reads_only_its_keys _ _) _).
  intros key Hin Hne. unfold HeartbeatMessage_codingKeys in Hin.
  repeat (apply elem_of_cons in Hin as [->|Hin];
          [first [reflexivity | done]|]).
  by apply not_elem_of_nil in Hin.
Defined.

(* ================================================================== *)
(** * Further properties of the manager *)

#[local] Set Warnings "-clear-no-such-hyp".

(** ** Channels *)

(** [X5] With one channel configuration, the broadcast role subscribes
    to exactly the channels of the user role together with those of the
    system role, and the default publish channel of each kind that has a
    payload type (heartbeat, system status, command, response) is among
    the channels every role subscribes to. *)
Theorem X5_default_channels_are_subscribed (a b : PubSubManager.t) :
  PubSubManager.configuration a = PubSubManager.configuration b ->
  (forall u s : PubSubManager.t,
      PubSubManager.configuration u = PubSubManager.configuration b ->
      PubSubManager.configuration s = PubSubManager.configuration b ->
      PubSubManager.daemonType u = DaemonType.user ->
      PubSubManager.daemonType s = DaemonType.system ->
      PubSubManager.daemonType b = DaemonType.broadcast ->
      (list_to_set (getChannelsForDaemonType b) : gset string)
      = list_to_set (getChannelsForDaemonType u)
        ∪ list_to_set (getChannelsForDaemonType s))
  /\ (forall kind,
        kind ∈ [MessageType.heartbeat; MessageType.systemStatus;
                MessageType.command; MessageType.response] ->
        defaultChannelForType a kind ∈ getChannelsForDaemonType b).
Proof.
  intros Hc. split.
  - intros u s Hu Hs Ru Rs Rb. unfold getChannelsForDaemonType.
    rewrite Hu, Hs, Ru, Rs, Rb. simpl. set_solver.
  - intros kind K. unfold defaultChannelForType, getChannelsForDaemonType.
    rewrite Hc.
    repeat (apply elem_of_cons in K as [->|K];
            [destruct (PubSubManager.daemonType b); simpl; set_solver|]).
    by apply not_elem_of_nil in K.
Qed.

Lemma X5_default_channels_are_subscribed_witness :
  defaultChannelForType (sampleManager DaemonType.user None ∅)
    MessageType.command
  ∈ getChannelsForDaemonType (sampleManager DaemonType.system None ∅).
Proof.
  assert (K : MessageType.command
              ∈ [MessageType.heartbeat; MessageType.systemStatus;
                 MessageType.command; MessageType.response])
    by (apply (bool_decide_unpack _); vm_compute; reflexivity).
  exact (proj2 (X5_default_channels_are_subscribed
                  (sampleManager DaemonType.user None ∅)
                  (sampleManager DaemonType.system None ∅) eq_refl)
           MessageType.command K).
Defined.

(** ** Publishing *)

Lemma publish_unconfigured {T} {B : BaseMessage.t T} (env : Environment)
  (message : T) (channel : option string) (self : PubSubManager.t) :
  PubSubManager.pubnub self = None ->
  publish env message channel self = (throws (PubSub notConfigured), self, []).
Proof. intros P. unfold publish. run_action. by rewrite P. Qed.

Lemma publish_unencodable {T} {B : BaseMessage.t T} (env : Environment)
  (message : T) (channel : option string) (self : PubSubManager.t)
  (e : SwiftError) :
  is_Some (PubSubManager.pubnub self) ->
  PubSubMessage.init message MessagePriority.normal = throws e ->
  publish env message channel self = (throws e, self, []).
Proof.
  intros [pn P] E. unfold publish. run_action. by rewrite P, E.
Qed.

Lemma publish_encoded {T} {B : BaseMessage.t T} (env : Environment)
  (message : T) (channel : option string) (self : PubSubManager.t)
  (frame : PubSubMessage.t) :
  is_Some (PubSubManager.pubnub self) ->
  PubSubMessage.init message MessagePriority.normal = returns frame ->
  let targetChannel :=
    default (defaultChannelForType self (BaseMessage.messageType message))
      channel in
  publish env message channel self
  = (match publishResult env targetChannel frame with
     | None => returns tt
     | Some error => throws (Transport error)
     end,
     self,
     [log LogLevel.debug
        (PublishingMessage (BaseMessage.messageType message) targetChannel);
      pubnub_publish targetChannel frame;
      match publishResult env targetChannel frame with
      | None => log LogLevel.debug MessagePublished
      | Some error => log LogLevel.error (FailedToPublish (Transport error))
      end]).
Proof.
  intros [pn P] E targetChannel. subst targetChannel.
  unfold publish. run_action. rewrite P, E. simpl.
  unfold getDefaultChannelForMessage.
  destruct (publishResult env _ frame); reflexivity.
Qed.

(** [X6] Whatever [publish] hands to the transport is one frame built
    from the message with priority normal (also for a command of another
    priority), on the channel given or else on the default channel of
    the message's kind; that frame decodes, at the receiving end, to the
    message that was published. *)
Theorem X6_published_frame_decodes_to_message (env : Environment)
  (channel : option string) (self : PubSubManager.t) (ch : string)
  (f : PubSubMessage.t) :
  (forall m : HeartbeatMessage.t,
      pubnub_publish ch f ∈ events_of (publish env m channel self) ->
      decodeMessage f = returns (AnyHeartbeat m)
      /\ PubSubMessage.priority f = MessagePriority.normal
      /\ ch = default (defaultChannelForType self MessageType.heartbeat) channel)
  /\ (forall m : SystemStatusMessage.t,
      pubnub_publish ch f ∈ events_of (publish env m channel self) ->
      decodeMessage f = returns (AnySystemStatus m)
      /\ PubSubMessage.priority f = MessagePriority.normal
      /\ ch = default (defaultChannelForType self MessageType.systemStatus) channel)
  /\ (forall m : CommandMessage.t,
      pubnub_publish ch f ∈ events_of (publish env m channel self) ->
      decodeMessage f = returns (AnyCommand m)
      /\ PubSubMessage.priority f = MessagePriority.normal
      /\ ch = default (defaultChannelForType self MessageType.command) channel)
  /\ (forall m : ResponseMessage.t,
      pubnub_publish ch f ∈ events_of (publish env m channel self) ->
      decodeMessage f = returns (AnyResponse m)
      /\ PubSubMessage.priority f = MessagePriority.normal
      /\ ch = default (defaultChannelForType self MessageType.response) channel).
Proof.
  assert (Sent : forall T (B : BaseMessage.t T) (m : T),
             pubnub_publish ch f ∈ events_of (publish env m channel self) ->
             PubSubMessage.init m MessagePriority.normal = returns f
             /\ ch = default (defaultChannelForType self
                                (BaseMessage.messageType m)) channel).
  { intros T B m Hin.
    destruct (PubSubManager.pubnub self) as [pn|] eqn:P.
    2:{ rewrite (publish_unconfigured _ _ _ _ P) in Hin.
        by apply not_elem_of_nil in Hin. }
    destruct (PubSubMessage.init m MessagePriority.normal) as [frame|e] eqn:E.
    2:{ rewrite (publish_unencodable _ _ _ _ e) in Hin; [|by eauto|exact E].
        by apply not_elem_of_nil in Hin. }
    rewrite (publish_encoded _ _ _ _ frame) in Hin; [|by eauto|exact E].
    unfold events_of in Hin; simpl in Hin.
    apply elem_of_cons in Hin as [Hin|Hin]; [discriminate Hin|].
    apply elem_of_cons in Hin as [Hin|Hin].
    - injection Hin as -> ->. by split.
    - apply elem_of_cons in Hin as [Hin|Hin].
      + destruct (publishResult env _ frame); discriminate Hin.
      + by apply not_elem_of_nil in Hin. }
  split; [|split; [|split]]; intros m Hin;
    destruct (Sent _ _ m Hin) as [E ->];
    pose proof (PubSubMessage_init_fields _ _ _ E) as (Henc & Hk & _ & _ & Hp);
    (split; [|split; [exact Hp | reflexivity]]);
    unfold decodeMessage, PubSubMessage.decode; rewrite Hk; simpl in *.
  - by rewrite (HeartbeatMessage_roundtrip _ _ Henc).
  - by rewrite (SystemStatusMessage_roundtrip _ _ Henc).
  - by rewrite (CommandMessage_roundtrip _ _ Henc).
  - by rewrite (ResponseMessage_roundtrip _ _ Henc).
Qed.

(** [X7] [publish] never changes the manager and hands the transport at
    most one frame.  Without a transport handle it throws
    [notConfigured], and when the message cannot be encoded it throws
    the encoding error; in both cases nothing is logged and nothing
    reaches the transport.  Any other error it throws is the failure the
    transport reported for the frame it was handed. *)
Theorem X7_publish_outcomes (T : Type) (B : BaseMessage.t T)
  (env : Environment) (message : T) (channel : option string)
  (self : PubSubManager.t) :
  let run := publish env message channel self in
  state_of run = self
  /\ length (List.filter
               (fun e => match e with pubnub_publish _ _ => true | _ => false end)
               (events_of run)) <= 1
  /\ (PubSubManager.pubnub self = None ->
      run = (throws (PubSub notConfigured), self, []))
  /\ (forall e, is_Some (PubSubManager.pubnub self) ->
        PubSubMessage.init message MessagePriority.normal = throws e ->
        run = (throws e, self, []))
  /\ (forall e, result_of run = throws e ->
        e = PubSub notConfigured
        \/ PubSubMessage.init message MessagePriority.normal = throws e
        \/ exists ch f error,
             e = Transport error
             /\ publishResult env ch f = Some error
             /\ pubnub_publish ch f ∈ events_of run).
Proof.
  intros run. subst run.
  destruct (PubSubManager.pubnub self) as [pn|] eqn:P.
  2:{ rewrite (publish_unconfigured _ _ _ _ P).
      unfold state_of, events_of, result_of; simpl.
      split; [reflexivity|]. split; [lia|]. split; [reflexivity|].
      split.
      - intros e [x Hx]. discriminate Hx.
      - intros e [= <-]. by left. }
  destruct (PubSubMessage.init message MessagePriority.normal)
    as [frame|e0] eqn:E.
  2:{ rewrite (publish_unencodable _ _ _ _ e0); [|by eauto|exact E].
      unfold state_of, events_of, result_of; simpl.
      split; [reflexivity|]. split; [lia|]. split; [discriminate|].
      split.
      - by intros e _ [= <-].
      - intros e [= <-]. right; by left. }
  rewrite (publish_encoded _ _ _ _ frame); [|by eauto|exact E].
  unfold state_of, events_of, result_of; simpl.
  split; [reflexivity|]. split.
  { destruct (publishResult env _ frame); simpl; lia. }
  split; [discriminate|]. split; [intros e _ D; discriminate D|].
  intros e He.
  destruct (publishResult env _ frame) as [error|] eqn:R; [|discriminate He].
  injection He as <-. right; right. do 3 eexists.
  split; [reflexivity|]. split; [exact R|].
  apply list_elem_of_further, list_elem_of_here.
Qed.

Lemma X6_published_frame_decodes_to_message_witness :
  pubnub_publish "dualdaemon.command" sampleCommandFrame
    ∈ events_of (publish (sampleEnvironment None) sampleCommand None
                   (sampleManager DaemonType.user None ∅))
  /\ decodeMessage sampleCommandFrame = returns (AnyCommand sampleCommand)
  /\ PubSubMessage.priority sampleCommandFrame = MessagePriority.normal.
Proof.
  assert (Hin : pubnub_publish "dualdaemon.command" sampleCommandFrame
                  ∈ events_of (publish (sampleEnvironment None) sampleCommand
                                 None (sampleManager DaemonType.user None ∅)))
    by (apply list_elem_of_further, list_elem_of_here).
  destruct (proj1 (proj2 (proj2
              (X6_published_frame_decodes_to_message (sampleEnvironment None)
                 None (sampleManager DaemonType.user None ∅)
                 "dualdaemon.command" sampleCommandFrame)))
              sampleCommand Hin) as (Hd & Hp & _).
  exact (conj Hin (conj Hd Hp)).
Defined.

Lemma X7_publish_outcomes_witness :
  publish (sampleEnvironment None) sampleCommand None
    (PubSubManager.set_pubnub None (sampleManager DaemonType.user None ∅))
  = (throws (PubSub notConfigured),
     PubSubManager.set_pubnub None (sampleManager DaemonType.user None ∅), []).
Proof.
  exact (proj1 (proj2 (proj2
           (X7_publish_outcomes _ _ (sampleEnvironment None) sampleCommand None
              (PubSubManager.set_pubnub None
                 (sampleManager DaemonType.user None ∅))))) eq_refl).
Defined.

(** ** Connecting and disconnecting *)

Lemma sendHeartbeat_run (env : Environment) (self : PubSubManager.t) :
  sendHeartbeat env self
  = publish env (heartbeatOf env self)
      (Some (ChannelConfiguration.heartbeatChannel
               (PubSubConfiguration.channels (PubSubManager.configuration self))))
      self.
Proof.
  unfold sendHeartbeat, mbind, Action_MBind, Action_bind, this, heartbeatOf.
  by destruct (publish env _ _ self) as [[r s] ev].
Qed.

Lemma connect_run (env : Environment) (self : PubSubManager.t)
  (frame : PubSubMessage.t) :
  is_Some (PubSubManager.pubnub self) ->
  PubSubMessage.init (heartbeatOf env self) MessagePriority.normal
    = returns frame ->
  let heartbeatChannel :=
    ChannelConfiguration.heartbeatChannel
      (PubSubConfiguration.channels (PubSubManager.configuration self)) in
  let upToResumption :=
    [task_updateConnectionStatus connecting;
     log LogLevel.info ConnectingToPubNub;
     pubnub_subscribe (getChannelsForDaemonType self);
     task_updateConnectionStatus connected;
     log LogLevel.info (ConnectedAndSubscribed (getChannelsForDaemonType self));
     timer_scheduled (PubSubConfiguration.heartbeatInterval
                        (PubSubManager.configuration self));
     log LogLevel.debug
       (PublishingMessage MessageType.heartbeat heartbeatChannel);
     pubnub_publish heartbeatChannel frame]
    ++ statusNotification self connecting
    ++ statusNotification self connected in
  connect env self
  = match publishResult env heartbeatChannel frame with
    | None =>
        (returns tt, connectedState self,
         upToResumption ++ [log LogLevel.debug MessagePublished])
    | Some error =>
        (throws (Transport error), connectedState self,
         upToResumption
         ++ [log LogLevel.error (FailedToPublish (Transport error));
             task_updateConnectionStatus (failed (Transport error));
             log LogLevel.error (FailedToConnect (Transport error))])
    end.
Proof.
  intros [pn P] E heartbeatChannel upToResumption.
  subst upToResumption heartbeatChannel.
  unfold connect.
  unfold mbind at 1, Action_MBind, Action_bind at 1, this at 1. rewrite P.
  unfold updateConnectionStatus, startHeartbeat, suspending,
    statusNotification.
  run_action.
  rewrite sendHeartbeat_run.
  match goal with
  | |- context [publish env ?m ?ch ?s] =>
      rewrite (publish_encoded env m ch s frame);
        [|simpl; rewrite P; by eauto|exact E]
  end; simpl.
  unfold connectionStatusTask. run_action.
  destruct (publishResult env _ frame) as [error|]; simpl;
    destruct (PubSubManager.delegate self) as [d|] eqn:D; simpl;
    rewrite ?D; simpl; rewrite ?D; reflexivity.
Qed.


(** [X9] When the transport refuses the first heartbeat, [connect]
    throws the transport's error.  The two status tasks spawned before
    the heartbeat have run while [connect] was suspended: the delegate
    has been told connecting and connected, and the status is connected.
    The task that reports the failure is only spawned before the error
    is thrown: when [connect] throws, the status is not failed and the
    delegate has not been told.  Nothing is rolled back: the channels
    stay recorded as subscribed, the heartbeat timer stays armed, and
    the transport is not asked to unsubscribe.  Once the main actor runs
    the spawned task, the status is failed with that error and the
    delegate is told so, with channels and timer still in place. *)
Theorem X9_connect_failure_keeps_subscription (env : Environment)
  (self : PubSubManager.t) (frame : PubSubMessage.t) (error : TransportError) :
  is_Some (PubSubManager.pubnub self) ->
  PubSubMessage.init (heartbeatOf env self) MessagePriority.normal
    = returns frame ->
  publishResult env
    (ChannelConfiguration.heartbeatChannel
       (PubSubConfiguration.channels (PubSubManager.configuration self)))
    frame = Some error ->
  let run := connect env self in
  let later := connectionStatusTask (failed (Transport error)) (state_of run) in
  result_of run = throws (Transport error)
  /\ PubSubManager.connectionStatus (state_of run) = connected
  /\ PubSubManager.subscribedChannels (state_of run)
     = list_to_set (getChannelsForDaemonType self)
  /\ PubSubManager.heartbeatTimer (state_of run)
     = Some (PubSubConfiguration.heartbeatInterval
               (PubSubManager.configuration self))
  /\ List.filter invokes_delegate (events_of run)
     = statusNotification self connecting ++ statusNotification self connected
  /\ spawnedStatuses (events_of run)
     = [connecting; connected; failed (Transport error)]
  /\ (pubnub_unsubscribeAll ∉ events_of run)
  /\ (timer_invalidated ∉ events_of run)
  /\ result_of later = returns tt
  /\ state_of later
     = PubSubManager.set_connectionStatus (failed (Transport error))
         (state_of run)
  /\ events_of later = statusNotification self (failed (Transport error)).
Proof.
  intros P E R run later. subst later run.
  rewrite (connect_run env self frame P E), R.
  unfold connectionStatusTask. run_action.
  unfold result_of, state_of, events_of, statusNotification; simpl.
  repeat (split; [reflexivity|]).
  split; [destruct (PubSubManager.delegate self); reflexivity|].
  split; [destruct (PubSubManager.delegate self); reflexivity|].
  split.
  { destruct (PubSubManager.delegate self); simpl; intros Hin;
      repeat (apply elem_of_cons in Hin as [Hin|Hin]; [discriminate Hin|]);
      by apply not_elem_of_nil in Hin. }
  split.
  { destruct (PubSubManager.delegate self); simpl; intros Hin;
      repeat (apply elem_of_cons in Hin as [Hin|Hin]; [discriminate Hin|]);
      by apply not_elem_of_nil in Hin. }
  destruct (PubSubManager.delegate self); repeat split; reflexivity.
Qed.

Lemma disconnect_run (self : PubSubManager.t) :
  disconnect self
  = (returns tt,
     PubSubManager.set_subscribedChannels ∅
       (PubSubManager.set_heartbeatTimer None self),
     (match PubSubManager.heartbeatTimer self with
      | Some _ => [timer_invalidated]
      | None => []
      end)
     ++ (match PubSubManager.pubnub self with
         | Some _ => [pubnub_unsubscribeAll; pubnub_removeAllListeners]
         | None => []
         end)
     ++ [task_updateConnectionStatus disconnected;
         log LogLevel.info DisconnectedFromPubNub]).
Proof.
  unfold disconnect, updateConnectionStatus. run_action.
  destruct (PubSubManager.heartbeatTimer self), (PubSubManager.pubnub self);
    reflexivity.
Qed.

(** [X10] [disconnect] always returns.  When it returns the timer field
    is empty and no channel is recorded as subscribed, the pending
    responses and the transport handle are kept as they were, and the
    status is still what it was: the task that sets it to disconnected
    has been spawned, the delegate has not been called.  The timer held
    in the field is invalidated exactly when the field held one, and
    disconnecting again changes nothing more and invalidates nothing.
    Once the main actor runs the spawned task, the status is
    disconnected and the delegate is told so, and nothing else
    changes. *)
Theorem X10_disconnect_idempotent (self : PubSubManager.t) :
  let run := disconnect self in
  let later := connectionStatusTask disconnected (state_of run) in
  result_of run = returns tt
  /\ PubSubManager.heartbeatTimer (state_of run) = None
  /\ PubSubManager.subscribedChannels (state_of run) = ∅
  /\ PubSubManager.connectionStatus (state_of run)
     = PubSubManager.connectionStatus self
  /\ spawnedStatuses (events_of run) = [disconnected]
  /\ List.filter invokes_delegate (events_of run) = []
  /\ PubSubManager.pendingResponses (state_of run)
     = PubSubManager.pendingResponses self
  /\ PubSubManager.pubnub (state_of run) = PubSubManager.pubnub self
  /\ (timer_invalidated ∈ events_of run
      <-> is_Some (PubSubManager.heartbeatTimer self))
  /\ state_of (disconnect (state_of run)) = state_of run
  /\ (timer_invalidated ∉ events_of (disconnect (state_of run)))
  /\ result_of later = returns tt
  /\ state_of later
     = PubSubManager.set_connectionStatus disconnected (state_of run)
  /\ events_of later = statusNotification self disconnected.
Proof.
  intros run later. subst later run. rewrite !disconnect_run.
  unfold connectionStatusTask. run_action.
  unfold result_of, state_of, events_of, statusNotification; simpl.
  repeat (split; [reflexivity|]).
  split.
  { destruct (PubSubManager.heartbeatTimer self),
      (PubSubManager.pubnub self); reflexivity. }
  split.
  { destruct (PubSubManager.heartbeatTimer self),
      (PubSubManager.pubnub self); reflexivity. }
  repeat (split; [reflexivity|]).
  split; [|split; [reflexivity|split]].
  - destruct (PubSubManager.heartbeatTimer self) as [t|]; simpl.
    + split; [eauto|]. intros _. apply list_elem_of_here.
    + split; [|intros [x Hx]; discriminate Hx].
      intros Hin. exfalso.
      destruct (PubSubManager.pubnub self); simpl in Hin;
        repeat (apply elem_of_cons in Hin as [Hin|Hin]; [discriminate Hin|]);
        by apply not_elem_of_nil in Hin.
  - intros Hin.
    destruct (PubSubManager.pubnub self); simpl in Hin;
      repeat (apply elem_of_cons in Hin as [Hin|Hin]; [discriminate Hin|]);
      by apply not_elem_of_nil in Hin.
  - destruct (PubSubManager.delegate self); repeat split; reflexivity.
Qed.

(** ** Heartbeats *)



Lemma X9_connect_failure_keeps_subscription_witness :
  let run := connect (sampleEnvironment (Some (transportError 5%N)))
               (sampleManager DaemonType.system (Some 1) ∅) in
  result_of run = throws (Transport (transportError 5%N))
  /\ PubSubManager.connectionStatus (state_of run) = connected
  /\ PubSubManager.heartbeatTimer (state_of run) = Some 30%float
  /\ spawnedStatuses (events_of run)
     = [connecting; connected; failed (Transport (transportError 5%N))].
Proof.
  intros run.
  assert (P : is_Some (PubSubManager.pubnub
                         (sampleManager DaemonType.system (Some 1) ∅)))
    by (simpl; eauto).
  assert (E : PubSubMessage.init
                (heartbeatOf (sampleEnvironment (Some (transportError 5%N)))
                   (sampleManager DaemonType.system (Some 1) ∅))
                MessagePriority.normal
              = returns sampleConnectFrame) by (vm_compute; reflexivity).
  destruct (X9_connect_failure_keeps_subscription
              (sampleEnvironment (Some (transportError 5%N)))
              (sampleManager DaemonType.system (Some 1) ∅)
              sampleConnectFrame (transportError 5%N) P E eq_refl)
    as (Hr & Hs & _ & Ht & _ & Hp & _).
  exact (conj Hr (conj Hs (conj Ht Hp))).
Defined.


(** ** Inbound messages *)

(** [X12] Handling an inbound message never throws and touches nothing
    of the manager but the pending responses, from which it removes at
    most one entry.  It resumes a continuation only with a response, and
    then exactly the one whose handler was pending under the response's
    correlation id, which it removes. *)
Theorem X12_inbound_contained (message : PubNubMessage)
  (self : PubSubManager.t) :
  let run := handleReceivedMessage message self in
  result_of run = returns tt
  /\ PubSubManager.pubnub (state_of run) = PubSubManager.pubnub self
  /\ PubSubManager.connectionStatus (state_of run)
     = PubSubManager.connectionStatus self
  /\ PubSubManager.subscribedChannels (state_of run)
     = PubSubManager.subscribedChannels self
  /\ PubSubManager.delegate (state_of run) = PubSubManager.delegate self
  /\ PubSubManager.heartbeatTimer (state_of run)
     = PubSubManager.heartbeatTimer self
  /\ (state_of run = self
      \/ exists k, is_Some (PubSubManager.pendingResponses self !! k)
                   /\ PubSubManager.pendingResponses (state_of run)
                      = delete k (PubSubManager.pendingResponses self))
  /\ length (List.filter invokes_continuation (events_of run)) <= 1
  /\ List.forallb (fun e => negb (is_transport_call e)) (events_of run) = true
  /\ forall c outcome,
       continuation_resume c outcome ∈ events_of run ->
       exists r, outcome = returns r
                 /\ PubSubManager.pendingResponses self
                      !! ResponseMessage.correlationId r
                    = Some (resumeReturning c)
                 /\ PubSubManager.pendingResponses (state_of run)
                    = delete (ResponseMessage.correlationId r)
                        (PubSubManager.pendingResponses self).
Proof.
  intros run. subst run.
  destruct message as [f|].
  2:{ rewrite handleReceivedMessage_undecodable.
      unfold result_of, state_of, events_of; simpl.
      repeat (split; [reflexivity|]). split; [by left|].
      split; [lia|]. split; [reflexivity|].
      intros c o Hin. apply elem_of_cons in Hin as [Hin|Hin];
        [discriminate Hin | by apply not_elem_of_nil in Hin]. }
  destruct (decide (PubSubMessage.source f = PubSubManager.daemonType self))
    as [Y|N].
  { rewrite (handleReceivedMessage_self_echo _ _ Y).
    unfold result_of, state_of, events_of; simpl.
    repeat (split; [reflexivity|]). split; [by left|].
    split; [lia|]. split; [reflexivity|].
    intros c o Hin. by apply not_elem_of_nil in Hin. }
  destruct (decodeMessage f) as [m|e] eqn:E.
  2:{ rewrite (handleReceivedMessage_decode_throws _ _ _ N E).
      unfold result_of, state_of, events_of; simpl.
      repeat (split; [reflexivity|]). split; [by left|].
      split; [lia|]. split; [reflexivity|].
      intros c o Hin. apply elem_of_cons in Hin as [Hin|Hin];
        [discriminate Hin | by apply not_elem_of_nil in Hin]. }
  destruct (as_ResponseMessage m) as [r|] eqn:A.
  2:{ rewrite (handleReceivedMessage_not_response _ _ _ N E A).
      unfold result_of, state_of, events_of; simpl.
      repeat (split; [reflexivity|]). split; [by left|].
      destruct (PubSubManager.delegate self); simpl;
        (split; [lia|]); (split; [reflexivity|]);
        intros c o Hin;
        repeat (apply elem_of_cons in Hin as [Hin|Hin]; [discriminate Hin|]);
        by apply not_elem_of_nil in Hin. }
  destruct m; try discriminate. injection A as ->.
  rewrite (handleReceivedMessage_response _ _ _ N E).
  unfold result_of, state_of, events_of; simpl.
  repeat (split; [reflexivity|]).
  destruct (PubSubManager.pendingResponses self
              !! ResponseMessage.correlationId r) as [[c0]|] eqn:P; simpl.
  - split; [right; exists (ResponseMessage.correlationId r); by eauto|].
    split; [lia|]. split; [reflexivity|].
    intros c o Hin.
    apply elem_of_cons in Hin as [Hin|Hin]; [discriminate Hin|].
    apply elem_of_cons in Hin as [Hin|Hin];
      [|by apply not_elem_of_nil in Hin].
    injection Hin as -> ->. exists r. by rewrite P.
  - split; [left; by apply set_pendingResponses_delete_absent|].
    destruct (PubSubManager.delegate self); simpl;
      (split; [lia|]); (split; [reflexivity|]);
      intros c o Hin;
      repeat (apply elem_of_cons in Hin as [Hin|Hin]; [discriminate Hin|]);
      by apply not_elem_of_nil in Hin.
Qed.




(** ** Pending responses: whole calls *)

Lemma set_pendingResponses_twice (p q : gmap UUID ResponseHandler)
  (self : PubSubManager.t) :
  PubSubManager.set_pendingResponses p
    (PubSubManager.set_pendingResponses q self)
  = PubSubManager.set_pendingResponses p self.
Proof. reflexivity. Qed.

Lemma register_then_remove (k : UUID) (h : ResponseHandler)
  (self : PubSubManager.t) :
  PubSubManager.pendingResponses self !! k = None ->
  PubSubManager.set_pendingResponses
    (delete k (<[k := h]> (PubSubManager.pendingResponses self)))
    (PubSubManager.set_pendingResponses
       (<[k := h]> (PubSubManager.pendingResponses self)) self)
  = self.
Proof.
  intros P. rewrite set_pendingResponses_twice, delete_insert_eq.
  by apply set_pendingResponses_delete_absent.
Qed.

(** [X14] A call whose command id was not pending leaves no trace once
    it is over: after [publishAndWaitForResponse] has stored its handler,
    the timeout closure resumes the caller with the timeout error and
    puts the manager back exactly as it was before the call, and so does
    a response carrying the command id, which resumes the caller with
    that response. *)
Theorem X14_call_leaves_no_trace (self : PubSubManager.t)
  (command : CommandMessage.t) (channel : option string)
  (delay : TimeInterval) (c : Continuation) :
  PubSubManager.pendingResponses self !! CommandMessage.id command = None ->
  let waitingState :=
    state_of (publishAndWaitForResponse command channel delay c self) in
  timeoutElapsed (CommandMessage.id command) c waitingState
  = (returns tt, self, [continuation_resume c (throws (PubSub timeout))])
  /\ forall f r,
       PubSubMessage.source f <> PubSubManager.daemonType self ->
       decodeMessage f = returns (AnyResponse r) ->
       ResponseMessage.correlationId r = CommandMessage.id command ->
       handleReceivedMessage (Some f) waitingState
       = (returns tt, self,
          [log LogLevel.debug
             (ReceivedMessage MessageType.response (ResponseMessage.source r));
           continuation_resume c (returns r)]).
Proof.
  intros P waitingState. subst waitingState.
  rewrite publishAndWaitForResponse_run. unfold state_of; simpl. split.
  - rewrite timeoutElapsed_run. simpl. rewrite lookup_insert_eq.
    by rewrite (register_then_remove _ _ _ P).
  - intros f r N E C.
    rewrite (handleReceivedMessage_response f
               (PubSubManager.set_pendingResponses _ self) r N E). simpl.
    rewrite C, lookup_insert_eq. by rewrite (register_then_remove _ _ _ P).
Qed.

Lemma X14_call_leaves_no_trace_witness :
  timeoutElapsed 19%N 1
    (state_of (publishAndWaitForResponse sampleCommand None 30%float 1
                 (sampleManager DaemonType.user (Some 7) ∅)))
  = (returns tt, sampleManager DaemonType.user (Some 7) ∅,
     [continuation_resume 1 (throws (PubSub timeout))]).
Proof.
  exact (proj1 (X14_call_leaves_no_trace
                  (sampleManager DaemonType.user (Some 7) ∅)
                  sampleCommand None 30%float 1 (lookup_empty _))).
Defined.

Lemma two_timeouts_run (k : UUID) (c1 c2 : Continuation)
  (self : PubSubManager.t) :
  run_schedule [step_timeout k c1; step_timeout k c2] self
  = (returns tt,
     PubSubManager.set_pendingResponses
       (delete k (PubSubManager.pendingResponses self)) self,
     match PubSubManager.pendingResponses self !! k with
     | Some _ => [continuation_resume c1 (throws (PubSub timeout))]
     | None => []
     end).
Proof.
  simpl. unfold mbind, Action_MBind, Action_bind.
  rewrite !timeoutElapsed_run. simpl. rewrite lookup_delete_eq.
  unfold mret, Action_MRet, Action_ret. rewrite delete_delete_eq.
  by rewrite app_nil_r.
Qed.

(** [X15] Two calls with the same command: the handler of the second
    replaces that of the first, and one of the two callers is never
    resumed.  If the timeouts run, the first call's timeout resumes the
    first caller and removes the second caller's handler, so the second
    timeout finds nothing; if a response arrives first, it resumes the
    second caller and both timeouts find nothing. *)
Theorem X15_same_command_twice_starves_a_caller (self : PubSubManager.t)
  (command : CommandMessage.t) (channel1 channel2 : option string)
  (delay1 delay2 : TimeInterval) (c1 c2 : Continuation) :
  c1 <> c2 ->
  let k := CommandMessage.id command in
  let both :=
    state_of (publishAndWaitForResponse command channel2 delay2 c2
                (state_of (publishAndWaitForResponse command channel1 delay1
                             c1 self))) in
  events_of (run_schedule [step_timeout k c1; step_timeout k c2] both)
  = [continuation_resume c1 (throws (PubSub timeout))]
  /\ resumptions c2
       (events_of (run_schedule [step_timeout k c1; step_timeout k c2] both))
     = []
  /\ forall f r,
       PubSubMessage.source f <> PubSubManager.daemonType self ->
       decodeMessage f = returns (AnyResponse r) ->
       ResponseMessage.correlationId r = k ->
       let run :=
         run_schedule [step_receive (Some f); step_timeout k c1;
                       step_timeout k c2] both in
       resumptions c2 (events_of run) = [returns r]
       /\ resumptions c1 (events_of run) = [].
Proof.
  intros Nc k both. subst both k.
  rewrite !publishAndWaitForResponse_run. unfold state_of at 1 2.
  cbn [fst snd].
  split; [|split].
  - rewrite two_timeouts_run. unfold events_of; simpl.
    by rewrite lookup_insert_eq.
  - rewrite two_timeouts_run. unfold events_of; simpl.
    rewrite lookup_insert_eq.
    unfold resumptions; simpl. by apply Nat.eqb_neq in Nc as ->.
  - intros f r N E C.
    erewrite run_schedule_cons;
      [|exact (handleReceivedMessage_response f
                 (PubSubManager.set_pendingResponses _ _) r N E)].
    rewrite two_timeouts_run. unfold events_of, state_of, result_of.
    simpl. rewrite C, lookup_insert_eq, lookup_delete_eq.
    unfold resumptions; simpl. rewrite Nat.eqb_refl.
    assert (c2 <> c1) as Nc' by congruence.
    by apply Nat.eqb_neq in Nc' as ->.
Qed.

Lemma X15_same_command_twice_starves_a_caller_witness :
  events_of
    (run_schedule [step_timeout 19%N 1; step_timeout 19%N 2]
       (state_of (publishAndWaitForResponse sampleCommand None 30%float 2
                    (state_of (publishAndWaitForResponse sampleCommand None
                                 30%float 1
                                 (sampleManager DaemonType.user (Some 7) ∅))))))
  = [continuation_resume 1 (throws (PubSub timeout))].
Proof.
  assert (N : 1 <> 2) by discriminate.
  exact (proj1 (X15_same_command_twice_starves_a_caller
                  (sampleManager DaemonType.user (Some 7) ∅)
                  sampleCommand None None 30%float 30%float 1 2 N)).
Defined.

Lemma publish_set_pendingResponses {T} {B : BaseMessage.t T}
  (env : Environment) (message : T) (channel : option string)
  (p : gmap UUID ResponseHandler) (self : PubSubManager.t) :
  result_of (publish env message channel
               (PubSubManager.set_pendingResponses p self))
  = result_of (publish env message channel self).
Proof.
  unfold publish. run_action.
  destruct (PubSubManager.pubnub self); simpl; [|reflexivity].
  unfold getDefaultChannelForMessage, defaultChannelForType. simpl.
  destruct (PubSubMessage.init message MessagePriority.normal); simpl;
    [|reflexivity].
  destruct (publishResult env _ _); reflexivity.
Qed.

Lemma publishTask_failure (env : Environment) (command : CommandMessage.t)
  (channel : option string) (c : Continuation) (self : PubSubManager.t)
  (e : SwiftError) :
  result_of (publish env command channel self) = throws e ->
  exists events,
    quiet events
    /\ publishTask env command channel c self
       = (returns tt,
          PubSubManager.set_pendingResponses
            (delete (CommandMessage.id command)
               (PubSubManager.pendingResponses self)) self,
          events ++ [continuation_resume c (throws e)]).
Proof.
  intros R. unfold publishTask, do_catch.
  destruct (publish_run env command channel self) as [S Q].
  destruct (publish env command channel self) as [[r self1] ev].
  unfold state_of, events_of, result_of in *; simpl in *. subst self1 r.
  exists ev. split; [exact Q|].
  unfold removeValue. run_action. reflexivity.
Qed.

(** [X16] When its publish fails, the publishing task of a call resumes
    the caller's continuation with the error whether or not the call's
    handler is still pending.  In particular, if the call's timeout has
    already run, the caller that was resumed with the timeout error is
    resumed a second time, with the publish error. *)
Theorem X16_publish_failure_resumes_unconditionally (env : Environment)
  (command : CommandMessage.t) (channel : option string) (c : Continuation)
  (self : PubSubManager.t) (e : SwiftError) :
  result_of (publish env command channel self) = throws e ->
  resumptions c (events_of (publishTask env command channel c self))
    = [throws e]
  /\ PubSubManager.pendingResponses
       (state_of (publishTask env command channel c self))
     = delete (CommandMessage.id command) (PubSubManager.pendingResponses self)
  /\ (is_Some (PubSubManager.pendingResponses self !! CommandMessage.id command) ->
      resumptions c
        (events_of
           (run_schedule
              [step_timeout (CommandMessage.id command) c;
               step_publishTask env command channel c] self))
      = [throws (PubSub timeout); throws e]).
Proof.
  intros R.
  destruct (publishTask_failure env command channel c self e R)
    as (ev & Q & ->).
  unfold events_of at 1, state_of at 1; simpl.
  split; [|split; [reflexivity|]].
  - rewrite resumptions_app, (resumptions_quiet _ _ Q).
    unfold resumptions; simpl. by rewrite Nat.eqb_refl.
  - intros [h P]. simpl. unfold mbind, Action_MBind, Action_bind.
    rewrite timeoutElapsed_run, P.
    match goal with
    | |- context [publishTask env command channel c ?s] =>
        destruct (publishTask_failure env command channel c s e)
          as (ev' & Q' & ->);
          [by rewrite publish_set_pendingResponses|]
    end.
    unfold mret, Action_MRet, Action_ret, events_of; simpl.
    rewrite app_nil_r, resumptions_app, (resumptions_quiet _ _ Q').
    unfold resumptions; simpl. by rewrite Nat.eqb_refl.
Qed.

Lemma X16_publish_failure_resumes_unconditionally_witness :
  resumptions 1
    (events_of
       (run_schedule
          [step_timeout 19%N 1;
           step_publishTask (sampleEnvironment (Some (transportError 5%N)))
             sampleCommand None 1]
          sampleWaitingManager))
  = [throws (PubSub timeout); throws (Transport (transportError 5%N))].
Proof.
  assert (R : result_of (publish (sampleEnvironment (Some (transportError 5%N)))
                           sampleCommand None sampleWaitingManager)
              = throws (Transport (transportError 5%N)))
    by (vm_compute; reflexivity).
  assert (P : is_Some (PubSubManager.pendingResponses sampleWaitingManager
                         !! CommandMessage.id sampleCommand))
    by (simpl; rewrite lookup_insert_eq; eauto).
  exact (proj2 (proj2 (X16_publish_failure_resumes_unconditionally
                         (sampleEnvironment (Some (transportError 5%N)))
                         sampleCommand None 1 sampleWaitingManager _ R)) P).
Defined.

(* ================================================================== *)
(** * Properties of the logger *)

(** [X18] The two conversions between the package's log levels and
    those of the logging framework are inverse to each other, and the
    level handed to the OS log depends only on the framework level. *)
Theorem X18_log_level_conversions :
  (forall l, LogLevel_from (LogLevel_swiftLogLevel l) = l)
  /\ (forall s, LogLevel_swiftLogLevel (LogLevel_from s) = s)
  /\ (forall l1 l2, LogLevel_swiftLogLevel l1 = LogLevel_swiftLogLevel l2 ->
                    LogLevel_osLogType l1 = LogLevel_osLogType l2).
Proof.
  split; [|split].
  - by intros [].
  - by intros [].
  - intros [] []; simpl; congruence.
Qed.

Lemma rotate_foldl_snoc (files : gmap nat (list Byte.byte)) (n : nat) :
  foldl rotateLogFile_body files (rev (seq 1 (S n)))
  = foldl rotateLogFile_body (rotateLogFile_body files (S n)) (rev (seq 1 n)).
Proof.
  rewrite seq_S, rev_app_distr. reflexivity.
Qed.

Lemma rotateLogFile_body_free (files : gmap nat (list Byte.byte)) (i : nat) :
  files !! (i + 1) = None ->
  rotateLogFile_body files i
  = match files !! i with
    | Some contents => <[i + 1 := contents]> (delete i files)
    | None => files
    end.
Proof.
  intros F. unfold rotateLogFile_body, try_moveItem, moveItem.
  destruct (files !! i); [|reflexivity]. by rewrite F.
Qed.

Lemma rotateLogFile_body_taken (files : gmap nat (list Byte.byte)) (i : nat) :
  is_Some (files !! (i + 1)) -> rotateLogFile_body files i = files.
Proof.
  intros [c F]. unfold rotateLogFile_body, try_moveItem, moveItem.
  destruct (files !! i); [|reflexivity]. by rewrite F.
Qed.

(** The loop, when the slot above the highest index it visits is free:
    everything from 1 to [n] moves up by one. *)
Lemma rotate_loop_shift (n : nat) :
  forall files : gmap nat (list Byte.byte),
    files !! (S n) = None ->
    let files' := foldl rotateLogFile_body files (rev (seq 1 n)) in
    files' !! 1 = None
    /\ (forall i, 1 <= i <= n -> files' !! (S i) = files !! i)
    /\ (forall j, j = 0 \/ S n < j -> files' !! j = files !! j).
Proof.
  induction n as [|n IH]; intros files F files'; subst files'.
  - simpl. split; [exact F|]. split; [intros i Hi; lia | reflexivity].
  - rewrite rotate_foldl_snoc.
    rewrite rotateLogFile_body_free by (by replace (S n + 1) with (S (S n)) by lia).
    replace (S n + 1) with (S (S n)) by lia.
    destruct (files !! S n) as [c|] eqn:E.
    + assert (F1 : (<[S (S n) := c]> (delete (S n) files)) !! S n = None).
      { rewrite lookup_insert_ne by lia. apply lookup_delete_eq. }
      destruct (IH _ F1) as (H1 & H2 & H3).
      split; [exact H1|]. split.
      * intros i Hi. destruct (decide (i = S n)) as [->|Ni].
        -- rewrite H3 by lia. by rewrite lookup_insert_eq.
        -- rewrite H2 by lia.
           rewrite lookup_insert_ne, lookup_delete_ne by lia. reflexivity.
      * intros j Hj. rewrite H3 by lia.
        rewrite lookup_insert_ne, lookup_delete_ne by lia. reflexivity.
    + destruct (IH _ E) as (H1 & H2 & H3).
      split; [exact H1|]. split.
      * intros i Hi. destruct (decide (i = S n)) as [->|Ni].
        -- rewrite H3 by lia. by rewrite F, E.
        -- apply H2. lia.
      * intros j Hj. apply H3. lia.
Qed.

(** [X19] With a rotation count of at least 1 and nothing stored under
    the highest rotated name, [rotateLogFile] moves every file up by one
    name: the log file becomes [.1], [.i] becomes [.(i+1)] for every [i]
    below the count, no log file is left under the plain name, and files
    with higher names are untouched. *)
Theorem X19_rotate_shifts_when_last_slot_free
  (configuration : LoggingConfiguration.t)
  (files : gmap nat (list Byte.byte)) :
  let count := LoggingConfiguration.logRotationCount configuration in
  (1 <= count)%Z ->
  files !! Z.to_nat count = None ->
  exists files',
    rotateLogFile configuration files = Some files'
    /\ files' !! 0 = None
    /\ (forall i, (Z.of_nat i < count)%Z -> files' !! (S i) = files !! i)
    /\ (forall j, (count < Z.of_nat j)%Z -> files' !! j = files !! j).
Proof.
  intros count Hc F. unfold rotateLogFile. fold count.
  destruct (count <? 1)%Z eqn:Lt; [apply Z.ltb_lt in Lt; lia|].
  eexists. split; [reflexivity|].
  set (n := Z.to_nat (count - 1)).
  assert (Hn : Z.to_nat count = S n) by (subst n; lia).
  rewrite Hn in F.
  destruct (rotate_loop_shift n files F) as (H1 & H2 & H3).
  set (files1 := foldl rotateLogFile_body files (rev (seq 1 n))) in *.
  unfold try_moveItem, moveItem. rewrite H1.
  assert (H0 : files1 !! 0 = files !! 0) by (apply H3; by left).
  rewrite H0.
  destruct (files !! 0) as [c|] eqn:E0; simpl.
  - split; [rewrite lookup_insert_ne by lia; apply lookup_delete_eq|].
    split.
    + intros i Hi. destruct i as [|i].
      * by rewrite lookup_insert_eq.
      * rewrite lookup_insert_ne, lookup_delete_ne by lia.
        rewrite H2 by lia. reflexivity.
    + intros j Hj. rewrite lookup_insert_ne, lookup_delete_ne by lia.
      apply H3. right. lia.
  - split; [by rewrite H0|]. split.
    + intros i Hi. destruct i as [|i].
      * by rewrite H1, E0.
      * apply H2. lia.
    + intros j Hj. apply H3. right. lia.
Qed.

Lemma rotate_loop_stalls (n : nat) :
  forall files : gmap nat (list Byte.byte),
    (forall i, 1 <= i <= S n -> is_Some (files !! i)) ->
    foldl rotateLogFile_body files (rev (seq 1 n)) = files.
Proof.
  induction n as [|n IH]; intros files Full; [reflexivity|].
  rewrite rotate_foldl_snoc.
  rewrite rotateLogFile_body_taken by (apply Full; lia).
  apply IH. intros i Hi. apply Full. lia.
Qed.

(** [X20] Once a file exists under every rotated name from [.1] up to
    the rotation count, [rotateLogFile] changes nothing: every move
    finds its destination taken, the oldest file is not discarded and
    the log file keeps its name and its bytes. *)
Theorem X20_rotate_stalls_when_full (configuration : LoggingConfiguration.t)
  (files : gmap nat (list Byte.byte)) :
  let count := LoggingConfiguration.logRotationCount configuration in
  (1 <= count)%Z ->
  (forall i, 1 <= i -> (Z.of_nat i <= count)%Z -> is_Some (files !! i)) ->
  rotateLogFile configuration files = Some files.
Proof.
  intros count Hc Full. unfold rotateLogFile. fold count.
  destruct (count <? 1)%Z eqn:Lt; [apply Z.ltb_lt in Lt; lia|].
  rewrite rotate_loop_stalls by (intros i Hi; apply Full; lia).
  unfold try_moveItem, moveItem.
  destruct (Full 1) as [c1 E1]; [lia|lia|].
  destruct (files !! 0); rewrite ?E1; reflexivity.
Qed.

Lemma try_moveItem_values (src dst : nat) (files : gmap nat (list Byte.byte)) :
  (map_to_list (try_moveItem src dst files)).*2 ≡ₚ (map_to_list files).*2.
Proof.
  unfold try_moveItem, moveItem.
  destruct (files !! src) as [c|] eqn:S; [|reflexivity].
  destruct (files !! dst) as [c'|] eqn:D; [reflexivity|]. simpl.
  destruct (decide (src = dst)) as [->|N]; [congruence|].
  rewrite map_to_list_insert by (by rewrite lookup_delete_ne).
  rewrite <- (insert_delete_id files src c S) at 2.
  rewrite map_to_list_insert by apply lookup_delete_eq.
  reflexivity.
Qed.

Lemma rotateLogFile_body_values (files : gmap nat (list Byte.byte)) (i : nat) :
  (map_to_list (rotateLogFile_body files i)).*2 ≡ₚ (map_to_list files).*2.
Proof.
  unfold rotateLogFile_body. destruct (files !! i); [|reflexivity].
  apply try_moveItem_values.
Qed.

Lemma rotate_loop_values (l : list nat) :
  forall files : gmap nat (list Byte.byte),
    (map_to_list (foldl rotateLogFile_body files l)).*2
    ≡ₚ (map_to_list files).*2.
Proof.
  induction l as [|i l IH]; intros files; [reflexivity|]. simpl.
  rewrite IH. apply rotateLogFile_body_values.
Qed.

(** [X21] Rotation never destroys data: whenever [rotateLogFile]
    returns, the files afterwards hold the same contents as before, only
    under other names, and there are as many of them; on start-up
    nothing is rotated unless logging to file is on, a path is
    configured and the log file is strictly larger than the configured
    maximum. *)
Theorem X21_rotation_keeps_contents (configuration : LoggingConfiguration.t)
  (files files' : gmap nat (list Byte.byte)) :
  (rotateLogFile configuration files = Some files' ->
     (map_to_list files').*2 ≡ₚ (map_to_list files).*2
     /\ size files' = size files)
  /\ (DaemonLogger_init configuration files = Some files' ->
      ((map_to_list files').*2 ≡ₚ (map_to_list files).*2)
      /\ (LoggingConfiguration.logToFile configuration = false
          \/ LoggingConfiguration.logFilePath configuration = None
          \/ (forall contents,
                files !! 0 = Some contents ->
                (Z.of_nat (length contents)
                 <= LoggingConfiguration.maxLogFileSize configuration)%Z) ->
          files' = files)).
Proof.
  assert (Rot : rotateLogFile configuration files = Some files' ->
                (map_to_list files').*2 ≡ₚ (map_to_list files).*2).
  { unfold rotateLogFile. destruct (_ <? 1)%Z; [discriminate|].
    intros [= <-]. rewrite try_moveItem_values. apply rotate_loop_values. }
  split.
  - intros R. pose proof (Rot R) as Hp. split; [exact Hp|].
    rewrite <- !length_map_to_list.
    rewrite <- (length_fmap snd (map_to_list files')).
    rewrite <- (length_fmap snd (map_to_list files)).
    by rewrite Hp.
  - unfold DaemonLogger_init, setupFileLogging. intros I. split.
    + destruct (LoggingConfiguration.logToFile configuration);
        [|by injection I as <-].
      destruct (LoggingConfiguration.logFilePath configuration);
        [|by injection I as <-].
      destruct (files !! 0) as [c|]; [|by injection I as <-].
      destruct (_ >? _)%Z; [by apply Rot | by injection I as <-].
    + intros [Off|[NoPath|Small]].
      * rewrite Off in I. by injection I as <-.
      * destruct (LoggingConfiguration.logToFile configuration);
          [|by injection I as <-].
        rewrite NoPath in I. by injection I as <-.
      * destruct (LoggingConfiguration.logToFile configuration);
          [|by injection I as <-].
        destruct (LoggingConfiguration.logFilePath configuration);
          [|by injection I as <-].
        destruct (files !! 0) as [c|] eqn:E0; [|by injection I as <-].
        specialize (Small c eq_refl).
        destruct (_ >? _)%Z eqn:Gt; [apply Z.gtb_gt in Gt; lia|].
        by injection I as <-.
Qed.

Lemma X19_rotate_shifts_when_last_slot_free_witness :
  exists files',
    rotateLogFile LoggingConfiguration.default sampleLogFiles = Some files'
    /\ files' !! 0 = None
    /\ files' !! 1 = Some [Byte.x6c; Byte.x6f; Byte.x67]
    /\ files' !! 2 = Some [Byte.x6f; Byte.x6c; Byte.x64].
Proof.
  assert (Hc : (1 <= LoggingConfiguration.logRotationCount
                       LoggingConfiguration.default)%Z)
    by (vm_compute; discriminate).
  assert (F : sampleLogFiles
                !! Z.to_nat (LoggingConfiguration.logRotationCount
                               LoggingConfiguration.default) = None)
    by (vm_compute; reflexivity).
  destruct (X19_rotate_shifts_when_last_slot_free LoggingConfiguration.default
              sampleLogFiles Hc F) as (files' & R & H0 & Hs & _).
  exists files'. split; [exact R|]. split; [exact H0|]. split.
  - rewrite (Hs 0) by (vm_compute; reflexivity). vm_compute. reflexivity.
  - rewrite (Hs 1) by (vm_compute; reflexivity). vm_compute. reflexivity.
Defined.

Lemma X20_rotate_stalls_when_full_witness :
  rotateLogFile LoggingConfiguration.default sampleFullLogFiles
  = Some sampleFullLogFiles.
Proof.
  assert (Hc : (1 <= LoggingConfiguration.logRotationCount
                       LoggingConfiguration.default)%Z)
    by (vm_compute; discriminate).
  refine (X20_rotate_stalls_when_full LoggingConfiguration.default
            sampleFullLogFiles Hc _).
  intros i H1 H2. simpl in H2.
  do 6 (destruct i as [|i]; [first [lia | (eexists; vm_compute; reflexivity)]|]).
  lia.
Defined.
